(** * EZCAD bridge: batch marking orchestration

    A shallow embedding of [src/ezcad_bridge.py] (class [EZCADBridge]):
    the process invoker [_run_bridge_command], the substring classifiers
    inside [open_ezd_file], [update_text], [mark], [red_light] and
    [save_ezd_file], the bracketed-line parser inside [list_entities], and
    the batch loop [process_data].

    Modelling conventions.
    - Python [str] values are [string]s whose characters are Unicode
      code points below 256; text with other code points is outside the
      model.  On that range the text primitives below ([lower], [strip],
      [splitlines], [split1], the [in] test) are the CPython ones: white
      space includes U+0085 and U+00A0, U+0085 ends a line, and the
      upper-case letters U+00C0 to U+00DE are lower-cased like A to Z.
    - The bridge object, the operating system and the list of processes
      started so far are threaded through a state-and-exception monad.
      A raised exception keeps every effect that happened before it, as
      in Python.  Only exceptions of class [Exception] are modelled
      (the ones [except Exception] catches).
    - Logger calls have no influence on control flow and are left out, as
      are the floating-point clock fields of the statistics
      ([start_time], [end_time], [duration]). *)

From Stdlib Require Import String Ascii List Bool Arith ZArith Lia.
Import ListNotations.
Open Scope list_scope.
Open Scope string_scope.
Open Scope nat_scope.

(** ** Text primitives (the Python [str] methods the bridge uses) *)

Module Text.

Definition code (c : ascii) : nat := nat_of_ascii c.

(** The code points below 256 that [str.lower()] changes: A to Z, and
    U+00C0 to U+00DE without the multiplication sign U+00D7.  Each is
    mapped 32 places up. *)
Definition is_upper (c : ascii) : bool :=
  let n := code c in
  ((65 <=? n) && (n <=? 90))
  || ((192 <=? n) && (n <=? 214))
  || ((216 <=? n) && (n <=? 222)).

Definition lower_char (c : ascii) : ascii :=
  if is_upper c then ascii_of_nat (code c + 32) else c.

(** [s.lower()] *)
Fixpoint lower (s : string) : string :=
  match s with
  | EmptyString => EmptyString
  | String c s' => String (lower_char c) (lower s')
  end.

(** White space as [str.strip()] sees it, below 256: TAB, LF, VT, FF,
    CR, FS, GS, RS, US, SPACE, NEL (U+0085) and NO-BREAK SPACE
    (U+00A0). *)
Definition isspace (c : ascii) : bool :=
  let n := code c in
  ((9 <=? n) && (n <=? 13)) || ((28 <=? n) && (n <=? 31)) || (n =? 32)
  || (n =? 133) || (n =? 160).

(** Line boundaries as [str.splitlines()] sees them, below 256: LF, VT,
    FF, CR, FS, GS, RS and NEL (U+0085); CR LF counts once. *)
Definition is_linebreak (c : ascii) : bool :=
  let n := code c in
  ((10 <=? n) && (n <=? 13)) || ((28 <=? n) && (n <=? 30)) || (n =? 133).

Fixpoint lstrip (s : string) : string :=
  match s with
  | EmptyString => EmptyString
  | String c s' => if isspace c then lstrip s' else s
  end.

Fixpoint rstrip (s : string) : string :=
  match s with
  | EmptyString => EmptyString
  | String c s' =>
      match rstrip s' with
      | EmptyString => if isspace c then EmptyString else String c EmptyString
      | r => String c r
      end
  end.

(** [s.strip()] *)
Definition strip (s : string) : string := lstrip (rstrip s).

(** [chop_prefix p s] is [Some rest] when [s = p ++ rest]. *)
Fixpoint chop_prefix (p s : string) : option string :=
  match p with
  | EmptyString => Some s
  | String a p' =>
      match s with
      | EmptyString => None
      | String b s' => if Ascii.eqb a b then chop_prefix p' s' else None
      end
  end.

(** [s.startswith(p)] *)
Definition startswith (p s : string) : bool :=
  match chop_prefix p s with Some _ => true | None => false end.

(** [s.partition(sep)] restricted to the found case: the text before
    and after the first occurrence of [sep]. *)
Fixpoint partition (sep s : string) : option (string * string) :=
  match chop_prefix sep s with
  | Some rest => Some (EmptyString, rest)
  | None =>
      match s with
      | EmptyString => None
      | String c s' =>
          match partition sep s' with
          | Some (a, b) => Some (String c a, b)
          | None => None
          end
      end
  end.

(** [sub in s] *)
Definition contains (sub s : string) : bool :=
  match partition sub s with Some _ => true | None => false end.

(** [s.split(sep, 1)]: a Python list of one or two pieces. *)
Definition split1 (sep s : string) : list string :=
  match partition sep s with
  | Some (a, b) => [a; b]
  | None => [s]
  end.

Definition cons_first (c : ascii) (ls : list string) : list string :=
  match ls with
  | [] => [String c EmptyString]
  | l :: rest => String c l :: rest
  end.

(** [s.splitlines()] *)
Fixpoint splitlines (s : string) : list string :=
  match s with
  | EmptyString => []
  | String c s' =>
      if is_linebreak c then
        match s' with
        | String d s'' =>
            if (code c =? 13) && (code d =? 10)
            then EmptyString :: splitlines s''
            else EmptyString :: splitlines s'
        | EmptyString => [EmptyString]
        end
      else cons_first c (splitlines s')
  end.

Definition nl : string := String (ascii_of_nat 10) EmptyString.
Definition cr : string := String (ascii_of_nat 13) EmptyString.
Definition nel : string := String (ascii_of_nat 133) EmptyString.
Definition nbsp : string := String (ascii_of_nat 160) EmptyString.

End Text.
Import Text.

(** ** The outside world

    Everything the bridge cannot decide by itself: whether a path exists
    ([os.path.exists]), what starting the bridge executable with a command
    line does ([subprocess.Popen] followed by [communicate]), and how a
    Python value is rendered by [str].  The world may change at every
    query. *)

Inductive popen_outcome : Type :=
| Exited (stdout stderr : string) (returncode : Z)
    (** the process ran; its decoded streams and exit status *)
| Raised (e : string).
    (** [Popen] or [communicate] raised; [e] is [str] of the exception *)

Class Env : Type := {
  world : Type;
  os_path_exists : string -> world -> bool * world;
  popen : list string -> world -> popen_outcome * world;
  pyobj : Type;
  py_str : pyobj -> string
}.

(** The dictionary returned by [_run_bridge_command]. *)
Module Result.
Record t : Type := make {
  output : string;
  error : string;
  return_code : Z;
  success : bool
}.
End Result.

(** The [stats] dictionary of [process_data] (integer fields). *)
Module Stats.
Record t : Type := make {
  total : nat;
  success : nat;
  errors : nat
}.
Definition inc_success (s : t) : t := make (total s) (S (success s)) (errors s).
Definition inc_errors (s : t) : t := make (total s) (success s) (S (errors s)).
End Stats.

(** What [process_data] returns: either the dictionary
    [{"success": False, "error": error}] or the statistics. *)
Inductive batch_result : Type :=
| Aborted (error : string)
| Statistics (stats : Stats.t).

(** The readers of that dictionary in [ezcad_integration.main]:
    [result.get('total', 0)], [result.get('success', 0)] (where [False]
    counts as 0) and [result.get('error')]. *)
Definition get_total (r : batch_result) : nat :=
  match r with Aborted _ => 0 | Statistics s => Stats.total s end.
Definition get_success (r : batch_result) : nat :=
  match r with Aborted _ => 0 | Statistics s => Stats.success s end.
Definition get_error (r : batch_result) : option string :=
  match r with Aborted e => Some e | Statistics _ => None end.

(** Python truthiness of an optional string argument: [None] and the
    empty string are falsy. *)
Definition truthy (o : option string) : bool :=
  match o with
  | Some (String _ _) => true
  | _ => false
  end.

Section Bridge.
Context {E : Env}.

(** The [EZCADBridge] object together with the world it runs in.
    [invocations] lists, oldest first, every command line handed to
    [subprocess.Popen]. *)
Record state : Type := mkState {
  bridge_exe_path : string;
  current_ezd_file : option string;
  os : world;
  invocations : list (list string)
}.

Definition set_os (w : world) (st : state) : state :=
  mkState (bridge_exe_path st) (current_ezd_file st) w (invocations st).
Definition set_current_ezd_file (f : option string) (st : state) : state :=
  mkState (bridge_exe_path st) f (os st) (invocations st).
Definition record_invocation (command : list string) (st : state) : state :=
  mkState (bridge_exe_path st) (current_ezd_file st) (os st)
          (invocations st ++ [command])%list.

(** State and exceptions: [inl e] is a raised exception with message
    [e]; the state component is the state at the time of raising. *)
Definition M (A : Type) : Type := state -> (string + A) * state.

Definition ret {A} (a : A) : M A := fun st => (inr a, st).
Definition raise {A} (e : string) : M A := fun st => (inl e, st).
Definition bind {A B} (m : M A) (k : A -> M B) : M B :=
  fun st =>
    match m st with
    | (inr a, st') => k a st'
    | (inl e, st') => (inl e, st')
    end.
(** [try: body except Exception as e: handler(str(e))] *)
Definition try_except {A} (body : M A) (handler : string -> M A) : M A :=
  fun st =>
    match body st with
    | (inr a, st') => (inr a, st')
    | (inl e, st') => handler e st'
    end.
Definition gets {A} (f : state -> A) : M A := fun st => (inr (f st), st).
Definition modify (f : state -> state) : M unit := fun st => (inr tt, f st).

(** [os.path.exists(path)] *)
Definition path_exists (path : string) : M bool :=
  fun st =>
    let (b, w) := os_path_exists path (os st) in
    (inr b, set_os w st).

(** [subprocess.Popen(command, ...)] then [process.communicate()]:
    yields [(stdout, stderr, returncode)] or raises. *)
Definition Popen_communicate (command : list string) : M (string * string * Z) :=
  fun st =>
    let (o, w) := popen command (os st) in
    let st' := record_invocation command (set_os w st) in
    match o with
    | Exited stdout stderr returncode => (inr (stdout, stderr, returncode), st')
    | Raised e => (inl e, st')
    end.

End Bridge.

Arguments state : clear implicits.
Arguments M : clear implicits.

Declare Scope bridge_scope.
Delimit Scope bridge_scope with bridge.
Notation "x <- m ;; k" := (bind m (fun x => k))
  (at level 61, m at next level, right associativity) : bridge_scope.
Notation "m ;;; k" := (bind m (fun _ => k))
  (at level 61, right associativity) : bridge_scope.

(** ** The methods of [EZCADBridge] *)

Section Methods.
Context {E : Env}.
Local Open Scope bridge_scope.

(** [_run_bridge_command(self, args)], lines 297-344.  The command
    line is the executable followed by [args]; an exception raised
    while starting or awaiting the process is turned into a result. *)
Definition _run_bridge_command (args : list string) : M E Result.t :=
  exe <- gets bridge_exe_path ;;
  let command := (exe :: args)%list in
  try_except
    (p <- Popen_communicate command ;;
     let '(stdout, stderr, returncode) := p in
     ret (Result.make stdout stderr returncode (Z.eqb returncode 0)))
    (fun e => ret (Result.make EmptyString e (-1) false)).

(** [open_ezd_file(self, ezd_file_path)], lines 83-103. *)
Definition open_ezd_file (ezd_file_path : string) : M E bool :=
  found <- path_exists ezd_file_path ;;
  if negb found then ret false
  else
    result <- _run_bridge_command ["open"; ezd_file_path] ;;
    if contains "successfully" (lower (Result.output result)) then
      modify (set_current_ezd_file (Some ezd_file_path)) ;;;
      ret true
    else ret false.

(** [update_text(self, entity_name, new_text)], lines 105-125. *)
Definition update_text (entity_name new_text : string) : M E bool :=
  cur <- gets current_ezd_file ;;
  match cur with
  | None => ret false
  | Some _ =>
      result <- _run_bridge_command ["update"; entity_name; new_text] ;;
      if contains "updated successfully" (lower (Result.output result))
      then ret true else ret false
  end.

(** Lines 141-146 of [mark]: [if entity_name:] chooses the command. *)
Definition mark_command (entity_name : option string) : list string :=
  match entity_name with
  | Some name => if truthy entity_name then ["mark"; name] else ["mark"]
  | None => ["mark"]
  end.

(** [mark(self, entity_name=None)], lines 127-152. *)
Definition mark (entity_name : option string) : M E bool :=
  cur <- gets current_ezd_file ;;
  match cur with
  | None => ret false
  | Some _ =>
      let command := mark_command entity_name in
      result <- _run_bridge_command command ;;
      if contains "completed" (lower (Result.output result))
      then ret true else ret false
  end.

(** [red_light(self, x, y)], lines 154-174. *)
Definition red_light (x y : pyobj) : M E bool :=
  cur <- gets current_ezd_file ;;
  match cur with
  | None => ret false
  | Some _ =>
      result <- _run_bridge_command ["red"; py_str x; py_str y] ;;
      if contains "positioned successfully" (lower (Result.output result))
      then ret true else ret false
  end.

(** The body of the [for line in ...splitlines()] loop of
    [list_entities], lines 192-201: the name a line contributes, if
    any. *)
Definition entity_of_line (line0 : string) : option string :=
  let line := strip line0 in
  if startswith "[" line && contains "]" line then
    match split1 "]" line with
    | _ :: part1 :: _ =>
        let entity_info := strip part1 in
        match split1 "(Type:" entity_info with
        | name0 :: _ => Some (strip name0)
        | [] => None
        end
    | _ => None
    end
  else None.

(** The loop itself, lines 190-203: [entities] grows by [append]. *)
Fixpoint parse_lines (lines : list string) (entities : list string) : list string :=
  match lines with
  | [] => entities
  | line :: rest =>
      match entity_of_line line with
      | Some entity_name => parse_lines rest (entities ++ [entity_name])%list
      | None => parse_lines rest entities
      end
  end.

Definition parse_entities (output : string) : list string :=
  parse_lines (splitlines output) [].

(** [list_entities(self)], lines 176-203. *)
Definition list_entities : M E (list string) :=
  cur <- gets current_ezd_file ;;
  match cur with
  | None => ret []
  | Some _ =>
      result <- _run_bridge_command ["list"] ;;
      ret (parse_entities (Result.output result))
  end.

(** [save_ezd_file(self, output_path)], lines 205-224. *)
Definition save_ezd_file (output_path : string) : M E bool :=
  cur <- gets current_ezd_file ;;
  match cur with
  | None => ret false
  | Some _ =>
      result <- _run_bridge_command ["save"; output_path] ;;
      if contains "saved successfully" (lower (Result.output result))
      then ret true else ret false
  end.

(** *** [process_data], lines 226-295

    A data item is a Python dict; [items()] walks it in insertion
    order, so it is an association list here.  The two methods the row
    loop calls on [self] are parameters of the loop: [process_data]
    below passes the methods of this class, and the batch invariant is
    proved for every pair of methods, raising ones included. *)
Definition data_item : Type := list (string * pyobj).

Section Loop.
Variable self_update_text : string -> string -> M E bool.
Variable self_mark : option string -> M E bool.

(** Lines 264-272: the inner [for entity_name, text_value in
    data_item.items()] loop; returns [update_success]. *)
Fixpoint update_entities (available_entities : list string)
         (items : data_item) (update_success : bool) : M E bool :=
  match items with
  | [] => ret update_success
  | (entity_name, text_value) :: rest =>
      if negb (String.eqb entity_name "id") then
        if existsb (String.eqb entity_name) available_entities then
          ok <- self_update_text entity_name (py_str text_value) ;;
          update_entities available_entities rest
                          (if ok then update_success else false)
        else update_entities available_entities rest update_success
      else update_entities available_entities rest update_success
  end.

(** Lines 259-286: one iteration of the outer loop.  The counters
    are touched by the last statement of each path only, so the
    updated dictionary is the value of the iteration. *)
Definition process_item (available_entities : list string)
           (item : data_item) (stats : Stats.t) : M E Stats.t :=
  try_except
    (update_success <- update_entities available_entities item true ;;
     if update_success then
       marked <- self_mark None ;;
       if marked then ret (Stats.inc_success stats)
       else ret (Stats.inc_errors stats)
     else ret (Stats.inc_errors stats))
    (fun _ => ret (Stats.inc_errors stats)).

(** Lines 258-286: the outer [for i, data_item in enumerate(...)]. *)
Fixpoint process_items (available_entities : list string)
         (data_items : list data_item) (stats : Stats.t) : M E Stats.t :=
  match data_items with
  | [] => ret stats
  | item :: rest =>
      stats' <- process_item available_entities item stats ;;
      process_items available_entities rest stats'
  end.

Definition process_data_with (ezd_template : string)
           (data_items : list data_item) (output_path : option string)
  : M E batch_result :=
  found <- path_exists ezd_template ;;
  if negb found then ret (Aborted "Template file not found")
  else
    let stats := Stats.make (length data_items) 0 0 in
    opened <- open_ezd_file ezd_template ;;
    if negb opened then ret (Aborted "Failed to open template file")
    else
      available_entities <- list_entities ;;
      stats' <- process_items available_entities data_items stats ;;
      match output_path with
      | Some path =>
          (if truthy output_path
           then (_ <- save_ezd_file path ;; ret tt)
           else ret tt) ;;;
          ret (Statistics stats')
      | None => ret (Statistics stats')
      end.
End Loop.

Definition process_data : string -> list data_item -> option string -> M E batch_result :=
  process_data_with update_text mark.

(** The two guards in front of the row loop (lines 238 and 250): the
    template exists and opening it is classified as success. *)
Definition template_opens (ezd_template : string) (st : state E) : bool :=
  match path_exists ezd_template st with
  | (inr true, st1) =>
      match open_ezd_file ezd_template st1 with
      | (inr true, _) => true
      | _ => false
      end
  | _ => false
  end.

End Methods.

(** ** The entity parser as the specification words it

    "A line is an entity record iff it starts with [[] and contains a
    []].  After the first []], the remainder is split on the literal
    token [(Type:]; the text before that split (trimmed) is the entity
    name." *)

Definition before (sep s : string) : string :=
  match partition sep s with Some (a, _) => a | None => s end.

Definition after_first (sep s : string) : string :=
  match partition sep s with Some (_, b) => b | None => EmptyString end.

Definition spec_is_record (line : string) : bool :=
  startswith "[" line && contains "]" line.

Definition spec_name (line : string) : string :=
  strip (before "(Type:" (after_first "]" line)).

(** Read on the lines exactly as emitted. *)
Definition spec_entities_raw (output : string) : list string :=
  map spec_name (filter spec_is_record (splitlines output)).

(** Read on the lines with their surrounding white space removed. *)
Definition spec_entities (output : string) : list string :=
  map spec_name (filter spec_is_record (map strip (splitlines output))).

(** Separators that neither begin nor end with white space: trimming a
    text cannot create or destroy an occurrence of such a separator. *)
Definition starts_nonspace (sep : string) : bool :=
  match sep with
  | EmptyString => false
  | String c _ => negb (isspace c)
  end.

Fixpoint ends_nonspace (sep : string) : bool :=
  match sep with
  | EmptyString => false
  | String c EmptyString => negb (isspace c)
  | String _ sep' => ends_nonspace sep'
  end.

(** ** A scripted world for concrete runs

    The file system is a fixed list of existing paths; every started
    process consumes the next scripted outcome, and starting a process
    when the script is exhausted raises, as a missing executable does. *)

Module Mock.
Record mock_world : Type := mk {
  files : list string;
  script : list popen_outcome
}.

Definition mock_exists (path : string) (w : mock_world) : bool * mock_world :=
  (existsb (String.eqb path) (files w), w).

Definition mock_popen (command : list string) (w : mock_world)
  : popen_outcome * mock_world :=
  match script w with
  | [] => (Raised "[WinError 2] The system cannot find the file specified", w)
  | o :: rest => (o, mk (files w) rest)
  end.

#[export] Instance env : Env := {|
  world := mock_world;
  os_path_exists := mock_exists;
  popen := mock_popen;
  pyobj := string;
  py_str := fun s => s
|}.

Definition says (stdout : string) : popen_outcome := Exited stdout EmptyString 0.

(** A bridge object for [EZCADBridge.exe] in a scripted world. *)
Definition bridge (current : option string) (fs : list string)
           (outcomes : list popen_outcome) (started : list (list string))
  : state env :=
  mkState "EZCADBridge.exe" current (mk fs outcomes) started.

(** A bridge with no template open. *)
Definition fresh (fs : list string) (outcomes : list popen_outcome) : state env :=
  bridge None fs outcomes [].

(** A bridge with [job.ezd] open. *)
Definition opened (outcomes : list popen_outcome) : state env :=
  bridge (Some "job.ezd") ["job.ezd"] outcomes [].
End Mock.
Import Mock.

(** ** The rest of the bridge: construction, [info], the command line

    [os.path.join], [os.path.dirname] and the directory of the module
    file depend on the platform and on where the module is installed;
    they are parameters. *)

Class OsPath : Type := {
  path_join : list string -> string;
  path_dirname : string -> string;
  module_dir : string
}.

(** Standard output as [print] sees it: [print(text)] writes the text
    or raises (a text the stream cannot encode, a closed stream);
    [Some e] is [str] of the exception. *)
Class Console : Type := {
  console : Type;
  console_print : string -> console -> option string * console
}.

Section Construction.
Context {E : Env} {P : OsPath} {C : Console}.
Local Open Scope bridge_scope.

(** Lines 40-44 of [__init__]: where the executable is looked for. *)
Definition possible_locations : list string :=
  [path_join [module_dir; "EZCADIntegration"; "bin"; "Release"; "EZCADBridge.exe"];
   path_join [module_dir; "EZCADIntegration"; "bin"; "Debug"; "EZCADBridge.exe"];
   path_join [module_dir; "EZCADBridge.exe"]].

(** Lines 46-49: the [for location in possible_locations] loop with its
    [break]. *)
Fixpoint first_existing (locations : list string) (w : world)
  : option string * world :=
  match locations with
  | [] => (None, w)
  | location :: rest =>
      let (found, w') := os_path_exists location w in
      if found then (Some location, w') else first_existing rest w'
  end.

(** [EZCADBridge.__init__(self, bridge_exe_path=None, logger=None)],
    lines 25-71: the new object, or the message of the
    [FileNotFoundError] it raises, with the world as the queries left
    it.  The check for [MarkEzd.dll] only logs a warning. *)
Definition EZCADBridge__init__ (bridge_exe_path : option string) (w : world)
  : (string * world) + state E :=
  let (chosen, w1) :=
    match bridge_exe_path with
    | None => first_existing possible_locations w
    | Some path => (Some path, w)
    end in
  match chosen with
  | None =>
      inl ("EZCADBridge.exe not found. Please build the C# bridge application or specify the path.",
           w1)
  | Some exe =>
      let (found, w2) := os_path_exists exe w1 in
      if negb found then inl ("Bridge executable not found at: " ++ exe, w2)
      else
        let bridge_dir := path_dirname exe in
        let dll_path := path_join [bridge_dir; "MarkEzd.dll"] in
        let (_, w3) := os_path_exists dll_path w2 in
        inr (mkState exe None w3 [])
  end.

(** [get_bridge_info(self)], lines 73-81. *)
Definition get_bridge_info : M E Result.t :=
  _run_bridge_command ["info"].

(** The parsed command line of [main], lines 364-395: [args.command]
    with the arguments of its sub-parser; [cli_none] when no command was
    given. *)
Inductive cli_command : Type :=
| cli_info
| cli_open (ezd_file : string)
| cli_update (entity text : string)
| cli_mark (entity : option string)
| cli_list
| cli_red (x y : pyobj)
| cli_save (output : string)
| cli_none.

Definition verdict (success : bool) : string :=
  if success then "Success" else "Failed".

(** The state of one run of the command line: the bridge, standard
    output, and the texts written to it so far, oldest first. *)
Record cli_state : Type := mkCli {
  cli_bridge : state E;
  cli_console : console;
  cli_written : list string
}.

Definition CLI (A : Type) : Type := cli_state -> (string + A) * cli_state.

Definition cli_ret {A} (a : A) : CLI A := fun s => (inr a, s).
Definition cli_bind {A B} (m : CLI A) (k : A -> CLI B) : CLI B :=
  fun s =>
    match m s with
    | (inr a, s') => k a s'
    | (inl e, s') => (inl e, s')
    end.

(** A method call on the bridge of the run. *)
Definition call {A} (method : M E A) : CLI A :=
  fun s =>
    let (r, bridge') := method (cli_bridge s) in
    (r, mkCli bridge' (cli_console s) (cli_written s)).

(** [print(text)] *)
Definition print (text : string) : CLI unit :=
  fun s =>
    let (raised, console') := console_print text (cli_console s) in
    match raised with
    | Some e => (inl e, mkCli (cli_bridge s) console' (cli_written s))
    | None => (inr tt, mkCli (cli_bridge s) console' (cli_written s ++ [text])%list)
    end.

(** Lines 420-421: [for entity in entities: print(f"  - {entity}")]. *)
Fixpoint print_entities (entities : list string) : CLI unit :=
  match entities with
  | [] => cli_ret tt
  | entity :: rest =>
      cli_bind (print ("  - " ++ entity)) (fun _ => print_entities rest)
  end.

(** Lines 401-432 of [main]: the dispatch on [args.command]. *)
Definition cli_dispatch (command : cli_command) : CLI unit :=
  match command with
  | cli_info =>
      cli_bind (call get_bridge_info) (fun result =>
      print (Result.output result))
  | cli_open ezd_file =>
      cli_bind (call (open_ezd_file ezd_file)) (fun success =>
      print ("Open result: " ++ verdict success))
  | cli_update entity text =>
      cli_bind (call (update_text entity text)) (fun success =>
      print ("Update result: " ++ verdict success))
  | cli_mark entity =>
      cli_bind (call (mark entity)) (fun success =>
      print ("Mark result: " ++ verdict success))
  | cli_list =>
      cli_bind (call list_entities) (fun entities =>
      cli_bind (print "Entities:") (fun _ =>
      print_entities entities))
  | cli_red x y =>
      cli_bind (call (red_light x y)) (fun success =>
      print ("Red light result: " ++ verdict success))
  | cli_save output =>
      cli_bind (call (save_ezd_file output)) (fun success =>
      print ("Save result: " ++ verdict success))
  | cli_none => print "Please specify a command. Use --help for options."
  end.

(** What one run of the command line leaves behind. *)
Record cli_outcome : Type := mkOutcome {
  cli_printed : list string;
  cli_exit : Z;
  cli_started : list (list string);
  cli_world : world
}.

(** [main()] of [ezcad_bridge.py], lines 397-436, from the parsed
    arguments on: a new bridge is built for every run; any exception
    raised inside the [try], by the constructor, by a method or by a
    [print], ends the run with [sys.exit(1)]; what was printed before
    stays printed. *)
Definition main (args_bridge : option string) (command : cli_command)
           (w : world) (stdout : console) : cli_outcome :=
  match EZCADBridge__init__ args_bridge w with
  | inl (_, w') => mkOutcome [] 1 [] w'
  | inr bridge =>
      match cli_dispatch command (mkCli bridge stdout []) with
      | (inr _, s) =>
          mkOutcome (cli_written s) 0
                    (invocations (cli_bridge s)) (os (cli_bridge s))
      | (inl _, s) =>
          mkOutcome (cli_written s) 1
                    (invocations (cli_bridge s)) (os (cli_bridge s))
      end
  end.

(** *** [ezcad_integration.py]: the methods that only use the bridge

    [self.bridge] is [None] or an [EZCADBridge]. *)
Inductive integration : Type :=
| NoBridge (w : world)
| WithBridge (bridge : state E).

(** [EZCADIntegration._init_bridge], lines 42-50; [bridge_exe] is the
    configured [Paths/ezcad_bridge_exe], [None] when absent. *)
Definition _init_bridge (bridge_exe : option string) (w : world) : integration :=
  match EZCADBridge__init__ bridge_exe w with
  | inr bridge => WithBridge bridge
  | inl (_, w') => NoBridge w'
  end.

(** Runs a bridge computation as a method of the integration object
    whose first statement is the [if not self.bridge] guard. *)
Definition with_bridge {A} (absent : A) (body : M E A) (self : integration)
  : (string + A) * integration :=
  match self with
  | NoBridge w => (inr absent, NoBridge w)
  | WithBridge bridge =>
      let (r, bridge') := body bridge in (r, WithBridge bridge')
  end.

(** [list_entities_in_template(self, ezd_template)], lines 118-143. *)
Definition list_entities_in_template (ezd_template : string)
  : integration -> (string + list string) * integration :=
  with_bridge []
    (found <- path_exists ezd_template ;;
     if negb found then ret []
     else
       opened <- open_ezd_file ezd_template ;;
       if negb opened then ret []
       else list_entities).

(** [test_integration(self, ezd_template)], lines 145-176. *)
Definition test_integration (ezd_template : string)
  : integration -> (string + bool) * integration :=
  with_bridge false
    (info <- get_bridge_info ;;
     found <- path_exists ezd_template ;;
     if negb found then ret false
     else
       opened <- open_ezd_file ezd_template ;;
       if negb opened then ret false
       else
         entities <- list_entities ;;
         ret true).

End Construction.

(** ** Vocabulary for the properties of the batch *)

Section Vocabulary.
Context {E : Env}.

(** The text a process outcome contributes as [result["output"]]. *)
Definition stdout_of (o : popen_outcome) : string :=
  match o with
  | Exited stdout _ _ => stdout
  | Raised _ => EmptyString
  end.

(** The outcome of starting the bridge with [args] in state [st], and
    the state afterwards. *)
Definition invoke_reply (args : list string) (st : state E) : popen_outcome :=
  fst (popen (bridge_exe_path st :: args) (os st)).

Definition invoke_state (args : list string) (st : state E) : state E :=
  record_invocation (bridge_exe_path st :: args)
    (set_os (snd (popen (bridge_exe_path st :: args) (os st))) st).

(** The fields of a data item that reach the template: every key but
    [id] that is one of the available entities. *)
Definition is_known_field (available_entities : list string)
           (field : string * pyobj) : bool :=
  negb (String.eqb (fst field) "id")
  && existsb (String.eqb (fst field)) available_entities.

Definition update_command (exe : string) (field : string * pyobj) : list string :=
  [exe; "update"; fst field; py_str (snd field)].

(** The commands the row loop may start: an [update] of an entity other
    than [id], or the [mark] of all entities. *)
Definition is_row_command (exe : string) (command : list string) : Prop :=
  (exists entity_name new_text,
      command = [exe; "update"; entity_name; new_text] /\ entity_name <> "id")
  \/ command = [exe; "mark"].

Definition count_marks (exe : string) (commands : list (list string)) : nat :=
  count_occ (list_eq_dec string_dec) commands [exe; "mark"].

(** A data item without its [id] fields. *)
Definition without_id (item : list (string * pyobj)) : list (string * pyobj) :=
  filter (fun field => negb (String.eqb (fst field) "id")) item.

(** Lines 289-290: the [save] a batch ends with, when an output path
    was given and is not empty. *)
Definition save_commands (exe : string) (output_path : option string)
  : list (list string) :=
  match output_path with
  | Some path => if truthy output_path then [[exe; "save"; path]] else []
  | None => []
  end.

End Vocabulary.

(** A path model for concrete runs: components joined by [/]. *)
Module MockPath.
Fixpoint join (parts : list string) : string :=
  match parts with
  | [] => EmptyString
  | [part] => part
  | part :: rest => part ++ "/" ++ join rest
  end.

(** The text before the last [/] ([EmptyString] when there is none). *)
Fixpoint dirname (path : string) : string :=
  match path with
  | EmptyString => EmptyString
  | String c rest =>
      if contains "/" rest then String c (dirname rest) else EmptyString
  end.

#[export] Instance ospath : OsPath := {|
  path_join := join;
  path_dirname := dirname;
  module_dir := "/opt/app"
|}.
End MockPath.
Import MockPath.

(** Two standard outputs for concrete runs: one that accepts every
    text, and one that can only encode 7-bit text. *)
Module MockConsole.
#[export] Instance accepting : Console := {|
  console := unit;
  console_print := fun _ c => (None, c)
|}.

Fixpoint is_7bit (text : string) : bool :=
  match text with
  | EmptyString => true
  | String c rest => (code c <? 128) && is_7bit rest
  end.

Definition seven_bit : Console := {|
  console := unit;
  console_print := fun text c =>
    if is_7bit text then (None, c)
    else (Some "'ascii' codec can't encode character", c)
|}.
End MockConsole.
Import MockConsole.

(** A world in which every path exists but the bridge executable cannot
    be started. *)
Module NoExecutable.
Definition env : Env := {|
  world := unit;
  os_path_exists := fun _ w => (true, w);
  popen := fun _ w => (Raised "[Errno 13] Permission denied", w);
  pyobj := string;
  py_str := fun s => s
|}.

Definition bridge (current : option string) : state env :=
  @mkState env "EZCADBridge.exe" current tt [].
End NoExecutable.

(** * Properties *)

(** ** Facts about the text primitives *)

Lemma append_nil_r (s : string) : s ++ EmptyString = s.
Proof. induction s as [|c s IH]; simpl; [reflexivity | now rewrite IH]. Qed.

Lemma append_assoc (a b c : string) : (a ++ b) ++ c = a ++ b ++ c.
Proof. induction a as [|x a IH]; simpl; [reflexivity | now rewrite IH]. Qed.

Lemma chop_prefix_app (p r : string) : chop_prefix p (p ++ r) = Some r.
Proof.
  induction p as [|a p IH]; simpl; [reflexivity|].
  now rewrite Ascii.eqb_refl.
Qed.

Lemma chop_prefix_inv (p s r : string) :
  chop_prefix p s = Some r -> s = p ++ r.
Proof.
  revert s; induction p as [|a p IH]; intros s H; simpl in *.
  - now inversion H.
  - destruct s as [|b s]; [discriminate|].
    destruct (Ascii.eqb a b) eqn:Hab; [|discriminate].
    apply Ascii.eqb_eq in Hab; subst b.
    now rewrite (IH _ H).
Qed.

Lemma partition_eq (sep s : string) :
  partition sep s =
  match chop_prefix sep s with
  | Some rest => Some (EmptyString, rest)
  | None =>
      match s with
      | EmptyString => None
      | String c s' =>
          match partition sep s' with
          | Some (a, b) => Some (String c a, b)
          | None => None
          end
      end
  end.
Proof. destruct s; reflexivity. Qed.

Lemma partition_inv (sep s a b : string) :
  partition sep s = Some (a, b) -> s = a ++ sep ++ b.
Proof.
  revert a b; induction s as [|c s IH]; intros a b H; rewrite partition_eq in H.
  - destruct (chop_prefix sep EmptyString) eqn:Hc; [|discriminate].
    inversion H; subst. simpl. now apply chop_prefix_inv.
  - destruct (chop_prefix sep (String c s)) eqn:Hc.
    + inversion H; subst. simpl. now apply chop_prefix_inv.
    + destruct (partition sep s) as [[a' b']|] eqn:Hp; [|discriminate].
      inversion H; subst. simpl. now rewrite <- (IH _ _ eq_refl).
Qed.

Lemma partition_app (sep p q : string) :
  exists a b, partition sep (p ++ sep ++ q) = Some (a, b).
Proof.
  induction p as [|c p [a [b IH]]]; simpl append; rewrite partition_eq.
  - rewrite chop_prefix_app. eauto.
  - destruct (chop_prefix sep (String c (p ++ sep ++ q))); [eauto|].
    rewrite IH. eauto.
Qed.

(** The [in] test is the substring relation. *)
Lemma contains_iff (sub s : string) :
  contains sub s = true <-> exists pre post, s = pre ++ sub ++ post.
Proof.
  unfold contains; split.
  - destruct (partition sub s) as [[a b]|] eqn:Hp; [|discriminate].
    intros _. exists a, b. now apply partition_inv.
  - intros [pre [post ->]].
    destruct (partition_app sub pre post) as [a [b ->]]. reflexivity.
Qed.

(** *** Trimming and splitting commute *)

Lemma startswith_cons (a b : ascii) (p s : string) :
  startswith (String a p) (String b s) =
  if Ascii.eqb a b then startswith p s else false.
Proof. unfold startswith; simpl. now destruct (Ascii.eqb a b). Qed.

Lemma startswith_nil_r (a : ascii) (p : string) :
  startswith (String a p) EmptyString = false.
Proof. reflexivity. Qed.

Lemma before_eq (sep s : string) :
  before sep s =
  if startswith sep s then EmptyString
  else match s with
       | EmptyString => EmptyString
       | String c s' => String c (before sep s')
       end.
Proof.
  unfold before, startswith. rewrite partition_eq.
  destruct (chop_prefix sep s); [reflexivity|].
  destruct s as [|c s]; [reflexivity|].
  now destruct (partition sep s) as [[a b]|].
Qed.

Lemma rstrip_cons_congr (c : ascii) (x y : string) :
  rstrip x = rstrip y -> rstrip (String c x) = rstrip (String c y).
Proof. intros H; simpl; now rewrite H. Qed.

Lemma lstrip_idem (s : string) : lstrip (lstrip s) = lstrip s.
Proof.
  induction s as [|c s IH]; simpl; [reflexivity|].
  destruct (isspace c) eqn:Hc; [exact IH|]. simpl. now rewrite Hc.
Qed.

Lemma rstrip_lstrip (s : string) : rstrip (lstrip s) = lstrip (rstrip s).
Proof.
  induction s as [|c s IH]; [reflexivity|].
  cbn [lstrip rstrip].
  destruct (isspace c) eqn:Hc.
  - rewrite IH. destruct (rstrip s) as [|d r]; [reflexivity|].
    cbn [lstrip]. now rewrite Hc.
  - cbn [rstrip]. destruct (rstrip s) as [|d r]; rewrite ?Hc; cbn [lstrip]; now rewrite Hc.
Qed.

Lemma before_lstrip (sep s : string) :
  starts_nonspace sep = true ->
  before sep (lstrip s) = lstrip (before sep s).
Proof.
  intros Hsep. destruct sep as [|a sep]; [discriminate|].
  cbn in Hsep; apply negb_true_iff in Hsep.
  induction s as [|c s IH]; [reflexivity|].
  cbn [lstrip]. destruct (isspace c) eqn:Hc.
  - rewrite IH, (before_eq _ (String c s)), startswith_cons.
    destruct (Ascii.eqb a c) eqn:Hac.
    + apply Ascii.eqb_eq in Hac; subst c. rewrite Hc in Hsep; discriminate.
    + cbn [lstrip]. now rewrite Hc.
  - rewrite (before_eq _ (String c s)).
    destruct (startswith (String a sep) (String c s)); [reflexivity|].
    cbn [lstrip]. now rewrite Hc.
Qed.

Lemma startswith_rstrip (sep s : string) :
  ends_nonspace sep = true ->
  startswith sep (rstrip s) = startswith sep s.
Proof.
  revert s; induction sep as [|a sep IH]; intros s Hsep; [discriminate|].
  destruct s as [|c s]; [reflexivity|].
  rewrite startswith_cons. cbn [rstrip].
  destruct sep as [|a' sep].
  - cbn in Hsep; apply negb_true_iff in Hsep.
    destruct (rstrip s) as [|d r]; [destruct (isspace c) eqn:Hc|];
      rewrite ?startswith_cons, ?startswith_nil_r; try reflexivity.
    destruct (Ascii.eqb a c) eqn:Hac; [|reflexivity].
    apply Ascii.eqb_eq in Hac; subst c. rewrite Hc in Hsep; discriminate.
  - assert (Hsep' : ends_nonspace (String a' sep) = true) by exact Hsep.
    specialize (IH s Hsep').
    destruct (rstrip s) as [|d r].
    + rewrite <- IH, startswith_nil_r.
      destruct (isspace c); rewrite ?startswith_cons, ?startswith_nil_r;
        now destruct (Ascii.eqb a c).
    + now rewrite startswith_cons, IH.
Qed.

Lemma rstrip_before (sep s : string) :
  ends_nonspace sep = true ->
  rstrip (before sep (rstrip s)) = rstrip (before sep s).
Proof.
  intros Hsep.
  assert (Hnil : startswith sep EmptyString = false)
    by (destruct sep; [discriminate | reflexivity]).
  assert (Hb0 : before sep EmptyString = EmptyString)
    by (rewrite before_eq; now destruct (startswith sep EmptyString)).
  induction s as [|c s IH]; [reflexivity|].
  pose proof (startswith_rstrip sep (String c s) Hsep) as HK.
  rewrite (before_eq sep (String c s)).
  cbn [rstrip] in *.
  destruct (rstrip s) as [|d r] eqn:Hr.
  - rewrite Hb0 in IH.
    destruct (isspace c) eqn:Hc.
    + rewrite Hb0, <- HK, Hnil. cbn [rstrip]. now rewrite <- IH, Hc.
    + rewrite before_eq, HK.
      destruct (startswith sep (String c s)); [reflexivity|].
      apply rstrip_cons_congr. now rewrite Hb0.
  - rewrite before_eq, HK.
    destruct (startswith sep (String c s)); [reflexivity|].
    now apply rstrip_cons_congr.
Qed.

Lemma strip_before_strip (sep s : string) :
  starts_nonspace sep = true -> ends_nonspace sep = true ->
  strip (before sep (strip s)) = strip (before sep s).
Proof.
  intros Hs He. unfold strip.
  rewrite before_lstrip by assumption.
  rewrite rstrip_lstrip, rstrip_before by assumption.
  apply lstrip_idem.
Qed.

(** *** The parser against the specification's wording *)

Lemma entity_of_line_spec (line : string) :
  entity_of_line line =
  if spec_is_record (strip line) then Some (spec_name (strip line)) else None.
Proof.
  unfold entity_of_line, spec_is_record, spec_name, after_first, split1.
  destruct (startswith "[" (strip line)); [|reflexivity].
  unfold contains.
  destruct (partition "]" (strip line)) as [[a b]|]; [|reflexivity].
  cbn [andb]. f_equal.
  rewrite <- (strip_before_strip "(Type:" b) by reflexivity.
  unfold before.
  now destruct (partition "(Type:" (strip b)) as [[a' b']|].
Qed.

Lemma parse_lines_spec (lines entities : list string) :
  parse_lines lines entities =
  (entities ++ map spec_name (filter spec_is_record (map strip lines)))%list.
Proof.
  revert entities; induction lines as [|line rest IH]; intros entities.
  - cbn. now rewrite app_nil_r.
  - cbn [parse_lines map filter]. rewrite entity_of_line_spec.
    destruct (spec_is_record (strip line)); rewrite IH; [|reflexivity].
    now rewrite <- app_assoc.
Qed.

Lemma parse_entities_spec (output : string) :
  parse_entities output = spec_entities output.
Proof. unfold parse_entities. now rewrite parse_lines_spec. Qed.

(** ** The process invoker *)

Section InvokerFacts.
Context {E : Env}.

(** What one invocation does, whatever the process does. *)
Lemma run_bridge_command_eq (args : list string) (st : state E) :
  _run_bridge_command args st =
  (inr match fst (popen (bridge_exe_path st :: args) (os st)) with
       | Exited stdout stderr returncode =>
           Result.make stdout stderr returncode (Z.eqb returncode 0)
       | Raised e => Result.make EmptyString e (-1) false
       end,
   record_invocation (bridge_exe_path st :: args)
     (set_os (snd (popen (bridge_exe_path st :: args) (os st))) st)).
Proof.
  unfold _run_bridge_command, bind, gets, try_except, Popen_communicate, ret.
  destruct (popen (bridge_exe_path st :: args) (os st)) as [[out err rc|e] w];
    reflexivity.
Qed.

Lemma run_bridge_command_session (args : list string) (st : state E) :
  current_ezd_file (snd (_run_bridge_command args st)) = current_ezd_file st.
Proof. rewrite run_bridge_command_eq. reflexivity. Qed.

Lemma run_bridge_command_invocations (args : list string) (st : state E) :
  invocations (snd (_run_bridge_command args st)) =
  (invocations st ++ [bridge_exe_path st :: args])%list.
Proof. rewrite run_bridge_command_eq. reflexivity. Qed.

(** None of the session methods lets an exception escape. *)
Lemma open_ezd_file_returns (path : string) (st : state E) :
  exists b st', open_ezd_file path st = (inr b, st').
Proof.
  unfold open_ezd_file, bind, path_exists.
  destruct (os_path_exists path (os st)) as [[|] w]; cbn [negb].
  - rewrite run_bridge_command_eq.
    match goal with |- context [if ?c then _ else _] => destruct c end;
      unfold modify, ret; eauto.
  - unfold ret; eauto.
Qed.

Lemma list_entities_returns (st : state E) :
  exists l st', list_entities st = (inr l, st').
Proof.
  unfold list_entities, bind, gets.
  destruct (current_ezd_file st); unfold ret; [|eauto].
  rewrite run_bridge_command_eq. eauto.
Qed.

Lemma save_ezd_file_returns (path : string) (st : state E) :
  exists b st', save_ezd_file path st = (inr b, st').
Proof.
  unfold save_ezd_file, bind, gets.
  destruct (current_ezd_file st); unfold ret; [|eauto].
  rewrite run_bridge_command_eq.
  match goal with |- context [if ?c then _ else _] => destruct c end; eauto.
Qed.
End InvokerFacts.

(** ** The batch loop *)

Section LoopFacts.
Context {E : Env}.
Variable self_update_text : string -> string -> M E bool.
Variable self_mark : option string -> M E bool.

(** One iteration never raises and bumps exactly one counter. *)
Lemma process_item_counts (available : list string) (item : data_item)
      (stats : Stats.t) (st : state E) :
  exists stats' st',
    process_item self_update_text self_mark available item stats st
    = (inr stats', st')
    /\ (stats' = Stats.inc_success stats \/ stats' = Stats.inc_errors stats).
Proof.
  unfold process_item, try_except, bind.
  destruct (update_entities self_update_text available item true st)
    as [[e|[|]] st1]; unfold ret; eauto.
  destruct (self_mark None st1) as [[e|[|]] st2]; eauto.
Qed.

Lemma process_items_counts (available : list string)
      (items : list data_item) (stats : Stats.t) (st : state E) :
  exists stats' st',
    process_items self_update_text self_mark available items stats st
    = (inr stats', st')
    /\ Stats.total stats' = Stats.total stats
    /\ Stats.success stats' + Stats.errors stats'
       = Stats.success stats + Stats.errors stats + length items.
Proof.
  revert stats st; induction items as [|item rest IH]; intros stats st.
  - exists stats, st. cbn. repeat split; lia.
  - cbn [process_items]. unfold bind.
    destruct (process_item_counts available item stats st)
      as [s1 [st1 [-> Hone]]].
    destruct (IH s1 st1) as [s2 [st2 [-> [Htot Hsum]]]].
    exists s2, st2. split; [reflexivity|].
    destruct Hone as [-> | ->]; cbn in *; split; lia.
Qed.
End LoopFacts.

(** ** The claims *)

(** C1.  Every run of [process_data], for any sequence of data items
    and any behaviour of the [update_text] and [mark] calls made for the
    rows (returning true, returning false or raising), returns normally;
    it returns statistics exactly when the template exists and opens, and
    these statistics satisfy [success + errors = total] with [total] the
    number of data items.  Each iteration of the row loop returns
    normally and increments exactly one of the two counters.
    [process_data] is [process_data_with update_text mark]. *)
Theorem process_data_counts_add_up :
  forall (E : Env)
         (self_update_text : string -> string -> M E bool)
         (self_mark : option string -> M E bool),
    (forall (ezd_template : string) (data_items : list data_item)
            (output_path : option string) (st : state E),
      exists r st',
        process_data_with self_update_text self_mark
                          ezd_template data_items output_path st = (inr r, st')
        /\ match r with
           | Statistics stats =>
               template_opens ezd_template st = true
               /\ Stats.total stats = length data_items
               /\ Stats.success stats + Stats.errors stats = Stats.total stats
           | Aborted _ => template_opens ezd_template st = false
           end)
    /\ (forall (available_entities : list string) (item : data_item)
               (stats : Stats.t) (st : state E),
         exists stats' st',
           process_item self_update_text self_mark
                        available_entities item stats st = (inr stats', st')
           /\ (stats' = Stats.inc_success stats
               \/ stats' = Stats.inc_errors stats)).
Proof.
  intros E upd mrk.
  split; [|apply process_item_counts].
  intros tpl rows out st.
  unfold process_data_with, template_opens, bind.
  destruct (path_exists tpl st) as [[e|[|]] st1] eqn:Hex; cbn [negb].
  - unfold path_exists in Hex.
    destruct (os_path_exists tpl (os st)); discriminate.
  - destruct (open_ezd_file_returns tpl st1) as [b [st2 Hopen]].
    rewrite Hopen. destruct b; cbn [negb].
    + destruct (list_entities_returns st2) as [avail [st3 ->]].
      destruct (process_items_counts upd mrk avail rows
                  (Stats.make (length rows) 0 0) st3)
        as [stats [st4 [-> [Htot Hsum]]]].
      cbn in Htot, Hsum.
      assert (Hgoal : Stats.total stats = length rows /\
                      Stats.success stats + Stats.errors stats = Stats.total stats)
        by (split; lia).
      destruct out as [path|].
      * destruct (truthy (Some path)).
        -- destruct (save_ezd_file_returns path st4) as [b [st5 Hs]].
           rewrite Hs. unfold ret. exists (Statistics stats), st5. tauto.
        -- unfold ret. exists (Statistics stats), st4. tauto.
      * unfold ret. exists (Statistics stats), st4. tauto.
    + unfold ret. do 2 eexists; split; reflexivity.
  - unfold ret. do 2 eexists; split; reflexivity.
Qed.

(** C2.  When the template path does not exist, [process_data] returns
    the result [{"success": False, "error": "Template file not found"}]:
    its readers see zero rows in total and zero successes, the error
    string is not empty, no process is started and the session is not
    touched. *)
Theorem process_data_template_missing :
  forall (E : Env) (ezd_template : string) (data_items : list data_item)
         (output_path : option string) (st : state E),
    fst (os_path_exists ezd_template (os st)) = false ->
    exists r st',
      process_data ezd_template data_items output_path st = (inr r, st')
      /\ r = Aborted "Template file not found"
      /\ get_total r = 0 /\ get_success r = 0
      /\ (exists e, get_error r = Some e /\ e <> EmptyString)
      /\ invocations st' = invocations st
      /\ current_ezd_file st' = current_ezd_file st.
Proof.
  intros E tpl rows out st Hmissing.
  unfold process_data, process_data_with, bind, path_exists.
  destruct (os_path_exists tpl (os st)) as [found w]; cbn in Hmissing; subst found.
  cbn [negb]. unfold ret.
  do 2 eexists. split; [reflexivity|].
  repeat split. eexists; split; [reflexivity | discriminate].
Qed.

Lemma process_data_template_missing_witness :
  fst (os_path_exists "missing.ezd" (os (fresh ["job.ezd"] []))) = false
  /\ exists r st',
      process_data "missing.ezd" [[("Serial", "SN100001")]] (Some "out.ezd")
                   (fresh ["job.ezd"] []) = (inr r, st')
      /\ r = Aborted "Template file not found"
      /\ get_total r = 0 /\ get_success r = 0
      /\ (exists e, get_error r = Some e /\ e <> EmptyString)
      /\ invocations st' = invocations (fresh ["job.ezd"] [])
      /\ current_ezd_file st' = current_ezd_file (fresh ["job.ezd"] []).
Proof.
  split; [reflexivity|].
  apply (process_data_template_missing env "missing.ezd"
           [[("Serial", "SN100001")]] (Some "out.ezd") (fresh ["job.ezd"] [])).
  reflexivity.
Defined.

(** C3.  When the template exists but opening it fails, [process_data]
    returns [{"success": False, "error": "Failed to open template file"}]
    at once: the final state is the state [open_ezd_file] left, so the
    only processes started are those of the open attempt (no [update],
    no [mark], no [list], no [save]), the session is as before, and the
    result carries no per-row counts. *)
Theorem process_data_open_failure :
  forall (E : Env) (ezd_template : string) (data_items : list data_item)
         (output_path : option string) (st st1 st2 : state E),
    path_exists ezd_template st = (inr true, st1) ->
    open_ezd_file ezd_template st1 = (inr false, st2) ->
    process_data ezd_template data_items output_path st
    = (inr (Aborted "Failed to open template file"), st2)
    /\ (exists issued,
          invocations st2 = (invocations st ++ issued)%list
          /\ Forall (fun command =>
                       command = [bridge_exe_path st; "open"; ezd_template])
                    issued)
    /\ current_ezd_file st2 = current_ezd_file st
    /\ get_total (Aborted "Failed to open template file") = 0
    /\ get_success (Aborted "Failed to open template file") = 0.
Proof.
  intros E tpl rows out st st1 st2 Hex Hopen.
  split; [|split; [|split; [|split; reflexivity]]].
  - unfold process_data, process_data_with, bind.
    rewrite Hex; cbn [negb]. now rewrite Hopen.
  - unfold path_exists in Hex.
    destruct (os_path_exists tpl (os st)) as [found w] eqn:Hw.
    inversion Hex; subst found st1; clear Hex.
    unfold open_ezd_file, bind, path_exists in Hopen.
    destruct (os_path_exists tpl (os (set_os w st))) as [[|] w2]; cbn [negb] in Hopen.
    + rewrite run_bridge_command_eq in Hopen.
      match type of Hopen with context [if ?c then _ else _] => destruct c end;
        unfold modify, ret in Hopen; inversion Hopen; subst st2.
      exists [[bridge_exe_path st; "open"; tpl]]. split; [reflexivity|].
      now constructor.
    + unfold ret in Hopen. inversion Hopen; subst st2.
      exists []. split; [cbn; now rewrite app_nil_r | constructor].
  - unfold path_exists in Hex.
    destruct (os_path_exists tpl (os st)) as [found w] eqn:Hw.
    inversion Hex; subst found st1; clear Hex.
    unfold open_ezd_file, bind, path_exists in Hopen.
    destruct (os_path_exists tpl (os (set_os w st))) as [[|] w2]; cbn [negb] in Hopen.
    + rewrite run_bridge_command_eq in Hopen.
      match type of Hopen with context [if ?c then _ else _] => destruct c end;
        unfold modify, ret in Hopen; inversion Hopen; subst st2.
      reflexivity.
    + unfold ret in Hopen. inversion Hopen; subst st2. reflexivity.
Qed.

Lemma process_data_open_failure_witness :
  process_data "job.ezd" [[("Serial", "SN100001")]; [("Serial", "SN100002")]]
               None (fresh ["job.ezd"] [says "Error: cannot load file"])
  = (inr (Aborted "Failed to open template file"),
     bridge None ["job.ezd"] [] [["EZCADBridge.exe"; "open"; "job.ezd"]])
  /\ (exists issued,
        [["EZCADBridge.exe"; "open"; "job.ezd"]] = ([] ++ issued)%list
        /\ Forall (fun command => command = ["EZCADBridge.exe"; "open"; "job.ezd"])
                  issued)
  /\ @None string = None
  /\ get_total (Aborted "Failed to open template file") = 0
  /\ get_success (Aborted "Failed to open template file") = 0.
Proof.
  apply (process_data_open_failure env "job.ezd"
           [[("Serial", "SN100001")]; [("Serial", "SN100002")]] None
           (fresh ["job.ezd"] [says "Error: cannot load file"])
           (fresh ["job.ezd"] [says "Error: cannot load file"])
           (bridge None ["job.ezd"] [] [["EZCADBridge.exe"; "open"; "job.ezd"]]));
    reflexivity.
Defined.

(** C4, the claim as stated.  Read on the lines as emitted, the claim
    fails: a line with leading white space does not start with [[], yet
    the parser trims each line before testing it and extracts its name. *)
Lemma list_entities_untrimmed_line_counterexample :
  parse_entities "  [0] Serial (Type: Text)" = ["Serial"]
  /\ spec_entities_raw "  [0] Serial (Type: Text)" = []
  /\ parse_entities "  [0] Serial (Type: Text)"
     <> spec_entities_raw "  [0] Serial (Type: Text)".
Proof. repeat split; vm_compute; discriminate. Qed.

(** C4, amended.  For every output text the parser of [list_entities]
    returns exactly the names extracted from the lines that, once their
    surrounding white space is trimmed, start with [[] and contain []]:
    the text after the first []], split on [(Type:], the part before it
    trimmed; in emitted order, duplicates kept.  Other lines contribute
    nothing; empty output and output without such lines give the empty
    list.  [list_entities] on an open session returns this list for the
    text the process printed.  Lines and white space are those of
    [str.splitlines] and [str.strip] on text over code points below
    256. *)
Theorem list_entities_parser_spec :
  (forall output, parse_entities output = spec_entities output)
  /\ parse_entities EmptyString = []
  /\ (forall output,
        (forall line, In line (splitlines output) ->
                      spec_is_record (strip line) = false) ->
        parse_entities output = [])
  /\ parse_entities ("[0] Serial (Type: Text)" ++ nl ++ "[1] QRCode (Type: Barcode)")
     = ["Serial"; "QRCode"]
  /\ parse_entities ("[0] Serial (Type: Text)" ++ nl ++ "[1 QRCode (Type: Barcode)")
     = ["Serial"]
  /\ (forall (E : Env) (st : state E) (f stdout stderr : string)
             (returncode : Z) (w : world),
        current_ezd_file st = Some f ->
        popen [bridge_exe_path st; "list"] (os st)
        = (Exited stdout stderr returncode, w) ->
        list_entities st
        = (inr (spec_entities stdout),
           record_invocation [bridge_exe_path st; "list"] (set_os w st))).
Proof.
  split; [exact parse_entities_spec|].
  split; [reflexivity|].
  split.
  { intros output Hnone. rewrite parse_entities_spec. unfold spec_entities.
    induction (splitlines output) as [|line rest IH]; [reflexivity|].
    cbn [map filter]. rewrite (Hnone line (or_introl eq_refl)).
    apply IH. intros l Hl. apply Hnone. now right. }
  split; [reflexivity|].
  split; [reflexivity|].
  intros E st f stdout stderr returncode w Hcur Hrun.
  unfold list_entities, bind, gets. rewrite Hcur.
  rewrite run_bridge_command_eq, Hrun. unfold ret.
  cbn [fst snd Result.output]. now rewrite parse_entities_spec.
Qed.

Lemma list_entities_parser_spec_witness :
  (forall line, In line (splitlines ("EZCAD bridge 1.0" ++ nl ++ "no entities"))
                -> spec_is_record (strip line) = false)
  /\ parse_entities ("EZCAD bridge 1.0" ++ nl ++ "no entities") = []
  /\ list_entities (opened [says ("[0] Serial (Type: Text)" ++ nl ++
                                  " [1] Serial" ++ nl ++ "done")])
     = (inr ["Serial"; "Serial"],
        bridge (Some "job.ezd") ["job.ezd"] [] [["EZCADBridge.exe"; "list"]]).
Proof.
  assert (H : forall line,
             In line (splitlines ("EZCAD bridge 1.0" ++ nl ++ "no entities"))
             -> spec_is_record (strip line) = false).
  { intros line [<- | [<- | []]]; reflexivity. }
  split; [exact H|].
  split.
  - exact (proj1 (proj2 (proj2 list_entities_parser_spec)) _ H).
  - exact (proj2 (proj2 (proj2 (proj2 (proj2 list_entities_parser_spec))))
             env (opened [says ("[0] Serial (Type: Text)" ++ nl ++
                                " [1] Serial" ++ nl ++ "done")])
             "job.ezd" _ EmptyString 0%Z (Mock.mk ["job.ezd"] [])
             eq_refl eq_refl).
Defined.

(** C5.  With no template open, [update_text], [mark], [save_ezd_file],
    [list_entities] and [red_light] return their failure value ([False],
    or the empty list) and leave the whole state as it was: in
    particular no process is started. *)
Theorem no_session_no_invocation :
  forall (E : Env) (st : state E),
    current_ezd_file st = None ->
    (forall entity_name new_text,
        update_text entity_name new_text st = (inr false, st))
    /\ (forall entity_name, mark entity_name st = (inr false, st))
    /\ (forall output_path, save_ezd_file output_path st = (inr false, st))
    /\ list_entities st = (inr [], st)
    /\ (forall x y, red_light x y st = (inr false, st)).
Proof.
  intros E st Hnone.
  unfold update_text, mark, save_ezd_file, list_entities, red_light, bind, gets.
  rewrite Hnone. repeat split.
Qed.

Lemma no_session_no_invocation_witness :
  current_ezd_file (fresh ["job.ezd"] [says "Marking completed"]) = None
  /\ update_text "Serial" "SN100001" (fresh ["job.ezd"] [says "Marking completed"])
     = (inr false, fresh ["job.ezd"] [says "Marking completed"])
  /\ mark None (fresh ["job.ezd"] [says "Marking completed"])
     = (inr false, fresh ["job.ezd"] [says "Marking completed"])
  /\ invocations (snd (mark (Some "Serial")
                            (fresh ["job.ezd"] [says "Marking completed"]))) = [].
Proof.
  destruct (no_session_no_invocation env
              (fresh ["job.ezd"] [says "Marking completed"]) eq_refl)
    as [Hupd [Hmark _]].
  split; [reflexivity|].
  split; [apply Hupd|].
  split; [apply Hmark|].
  rewrite Hmark. reflexivity.
Defined.

(** C6.  On an open session, for every text the process prints,
    [update_text] returns true exactly when the lower-cased text contains
    [updated successfully], and [mark] returns true exactly when it
    contains [completed].  The two sample outputs classify as success
    and as failure. *)
Theorem update_mark_classification :
  (forall (E : Env) (st : state E) (f entity_name new_text : string)
          (stdout stderr : string) (returncode : Z) (w : world),
      current_ezd_file st = Some f ->
      popen [bridge_exe_path st; "update"; entity_name; new_text] (os st)
      = (Exited stdout stderr returncode, w) ->
      exists b,
        fst (update_text entity_name new_text st) = inr b
        /\ (b = true <->
            exists pre post,
              lower stdout = pre ++ "updated successfully" ++ post))
  /\ (forall (E : Env) (st : state E) (f : string) (entity_name : option string)
             (stdout stderr : string) (returncode : Z) (w : world),
         current_ezd_file st = Some f ->
         popen (bridge_exe_path st :: mark_command entity_name) (os st)
         = (Exited stdout stderr returncode, w) ->
         exists b,
           fst (mark entity_name st) = inr b
           /\ (b = true <->
               exists pre post, lower stdout = pre ++ "completed" ++ post))
  /\ fst (update_text "X" "SN100001"
            (opened [says "Entity updated successfully for field X"]))
     = inr true
  /\ fst (update_text "X" "SN100001"
            (opened [says "Update failed: entity not found"]))
     = inr false.
Proof.
  split; [|split; [|split; reflexivity]].
  - intros E st f entity_name new_text stdout stderr rc w Hcur Hrun.
    unfold update_text, bind, gets. rewrite Hcur.
    rewrite run_bridge_command_eq, Hrun. cbn [fst snd Result.output].
    destruct (contains "updated successfully" (lower stdout)) eqn:Hc;
      unfold ret; eexists; (split; [reflexivity|]);
      rewrite <- contains_iff, Hc; intuition congruence.
  - intros E st f entity_name stdout stderr rc w Hcur Hrun.
    unfold mark, bind, gets. rewrite Hcur.
    rewrite run_bridge_command_eq, Hrun. cbn [fst snd Result.output].
    destruct (contains "completed" (lower stdout)) eqn:Hc;
      unfold ret; eexists; (split; [reflexivity|]);
      rewrite <- contains_iff, Hc; intuition congruence.
Qed.

Lemma update_mark_classification_witness :
  (exists b,
      fst (update_text "Serial" "SN100001"
             (opened [says "Text UPDATED Successfully."])) = inr b
      /\ (b = true <->
          exists pre post,
            lower "Text UPDATED Successfully."
            = pre ++ "updated successfully" ++ post))
  /\ (exists b,
         fst (mark None (opened [says "Marking Completed"])) = inr b
         /\ (b = true <->
             exists pre post, lower "Marking Completed" = pre ++ "completed" ++ post)).
Proof.
  split.
  - exact (proj1 update_mark_classification env
             (opened [says "Text UPDATED Successfully."])
             "job.ezd" "Serial" "SN100001" _ EmptyString 0%Z
             (Mock.mk ["job.ezd"] []) eq_refl eq_refl).
  - exact (proj1 (proj2 update_mark_classification) env
             (opened [says "Marking Completed"])
             "job.ezd" None _ EmptyString 0%Z
             (Mock.mk ["job.ezd"] []) eq_refl eq_refl).
Defined.

(** C7, the claim as stated.  For [save_ezd_file] and [red_light] the
    word [successfully] in the output is not enough: the text below
    contains it, and both operations report failure. *)
Lemma save_position_phrase_counterexample :
  ~ (fst (save_ezd_file "out.ezd" (opened [says "File written successfully"]))
     = inr true
     <-> exists pre post,
         lower "File written successfully" = pre ++ "successfully" ++ post)
  /\ fst (save_ezd_file "out.ezd" (opened [says "File written successfully"]))
     = inr false
  /\ contains "successfully" (lower "File written successfully") = true
  /\ fst (red_light "10.0" "20.0" (opened [says "Pointer moved successfully"]))
     = inr false
  /\ contains "successfully" (lower "Pointer moved successfully") = true.
Proof.
  split; [|repeat split].
  intros [_ H].
  assert (Hsub : exists pre post,
             lower "File written successfully" = pre ++ "successfully" ++ post)
    by (apply contains_iff; reflexivity).
  specialize (H Hsub). vm_compute in H. discriminate.
Qed.

(** C7, amended.  For every text the process prints: [open_ezd_file]
    (on an existing path) returns true exactly when the lower-cased text
    contains [successfully]; [save_ezd_file] exactly when it contains
    [saved successfully]; [red_light] exactly when it contains
    [positioned successfully]. *)
Theorem open_save_position_classification :
  (forall (E : Env) (st : state E) (ezd_file_path stdout stderr : string)
          (returncode : Z) (w1 w2 : world),
      os_path_exists ezd_file_path (os st) = (true, w1) ->
      popen [bridge_exe_path st; "open"; ezd_file_path] w1
      = (Exited stdout stderr returncode, w2) ->
      exists b,
        fst (open_ezd_file ezd_file_path st) = inr b
        /\ (b = true <->
            exists pre post, lower stdout = pre ++ "successfully" ++ post))
  /\ (forall (E : Env) (st : state E) (f output_path stdout stderr : string)
             (returncode : Z) (w : world),
         current_ezd_file st = Some f ->
         popen [bridge_exe_path st; "save"; output_path] (os st)
         = (Exited stdout stderr returncode, w) ->
         exists b,
           fst (save_ezd_file output_path st) = inr b
           /\ (b = true <->
               exists pre post,
                 lower stdout = pre ++ "saved successfully" ++ post))
  /\ (forall (E : Env) (st : state E) (f : string) (x y : pyobj)
             (stdout stderr : string) (returncode : Z) (w : world),
         current_ezd_file st = Some f ->
         popen [bridge_exe_path st; "red"; py_str x; py_str y] (os st)
         = (Exited stdout stderr returncode, w) ->
         exists b,
           fst (red_light x y st) = inr b
           /\ (b = true <->
               exists pre post,
                 lower stdout = pre ++ "positioned successfully" ++ post)).
Proof.
  split; [|split].
  - intros E st path stdout stderr rc w1 w2 Hex Hrun.
    unfold open_ezd_file, bind, path_exists. rewrite Hex. cbn [negb].
    rewrite run_bridge_command_eq. cbn [os set_os bridge_exe_path].
    rewrite Hrun. cbn [fst snd Result.output].
    destruct (contains "successfully" (lower stdout)) eqn:Hc;
      unfold modify, ret; eexists; (split; [reflexivity|]);
      rewrite <- contains_iff, Hc; intuition congruence.
  - intros E st f output_path stdout stderr rc w Hcur Hrun.
    unfold save_ezd_file, bind, gets. rewrite Hcur.
    rewrite run_bridge_command_eq, Hrun. cbn [fst snd Result.output].
    destruct (contains "saved successfully" (lower stdout)) eqn:Hc;
      unfold ret; eexists; (split; [reflexivity|]);
      rewrite <- contains_iff, Hc; intuition congruence.
  - intros E st f x y stdout stderr rc w Hcur Hrun.
    unfold red_light, bind, gets. rewrite Hcur.
    rewrite run_bridge_command_eq, Hrun. cbn [fst snd Result.output].
    destruct (contains "positioned successfully" (lower stdout)) eqn:Hc;
      unfold ret; eexists; (split; [reflexivity|]);
      rewrite <- contains_iff, Hc; intuition congruence.
Qed.

Lemma open_save_position_classification_witness :
  (exists b,
      fst (open_ezd_file "job.ezd"
             (fresh ["job.ezd"] [says "File opened SUCCESSFULLY"])) = inr b
      /\ (b = true <->
          exists pre post,
            lower "File opened SUCCESSFULLY" = pre ++ "successfully" ++ post))
  /\ (exists b,
         fst (save_ezd_file "out.ezd" (opened [says "File saved successfully"]))
         = inr b
         /\ (b = true <->
             exists pre post,
               lower "File saved successfully"
               = pre ++ "saved successfully" ++ post))
  /\ (exists b,
         fst (red_light "10.0" "20.0"
                (opened [says "Red light positioned successfully"])) = inr b
         /\ (b = true <->
             exists pre post,
               lower "Red light positioned successfully"
               = pre ++ "positioned successfully" ++ post)).
Proof.
  split; [|split].
  - exact (proj1 open_save_position_classification env
             (fresh ["job.ezd"] [says "File opened SUCCESSFULLY"])
             "job.ezd" _ EmptyString 0%Z
             (Mock.mk ["job.ezd"] [says "File opened SUCCESSFULLY"])
             (Mock.mk ["job.ezd"] []) eq_refl eq_refl).
  - exact (proj1 (proj2 open_save_position_classification) env
             (opened [says "File saved successfully"])
             "job.ezd" "out.ezd" _ EmptyString 0%Z
             (Mock.mk ["job.ezd"] []) eq_refl eq_refl).
  - exact (proj2 (proj2 open_save_position_classification) env
             (opened [says "Red light positioned successfully"])
             "job.ezd" "10.0" "20.0" _ EmptyString 0%Z
             (Mock.mk ["job.ezd"] []) eq_refl eq_refl).
Defined.

(** C8.  [open_ezd_file] always returns.  On an existing path it starts
    one [open] process and returns true exactly when the lower-cased
    output of that process contains [successfully]; when it returns true
    the given path is the current session path, and when it returns
    false the session path is what it was before the call.  When the
    path does not exist it returns false without starting a process. *)
Theorem open_ezd_file_session :
  forall (E : Env) (st : state E) (ezd_file_path : string),
  exists b st',
    open_ezd_file ezd_file_path st = (inr b, st')
    /\ (if b then current_ezd_file st' = Some ezd_file_path
        else current_ezd_file st' = current_ezd_file st)
    /\ (fst (os_path_exists ezd_file_path (os st)) = false ->
        b = false /\ invocations st' = invocations st)
    /\ (forall w1,
           os_path_exists ezd_file_path (os st) = (true, w1) ->
           (b = true <->
            exists pre post,
              lower (stdout_of
                       (fst (popen [bridge_exe_path st; "open"; ezd_file_path] w1)))
              = pre ++ "successfully" ++ post)
           /\ invocations st'
              = (invocations st
                 ++ [[bridge_exe_path st; "open"; ezd_file_path]])%list).
Proof.
  intros E st path.
  unfold open_ezd_file, bind, path_exists.
  destruct (os_path_exists path (os st)) as [[|] w]; cbn [negb].
  - rewrite run_bridge_command_eq. cbn [bridge_exe_path set_os os].
    assert (Hout :
              Result.output
                match fst (popen [bridge_exe_path st; "open"; path] w) with
                | Exited stdout stderr returncode =>
                    Result.make stdout stderr returncode (Z.eqb returncode 0)
                | Raised e => Result.make EmptyString e (-1) false
                end
              = stdout_of (fst (popen [bridge_exe_path st; "open"; path] w))).
    { destruct (fst (popen [bridge_exe_path st; "open"; path] w)); reflexivity. }
    rewrite Hout.
    destruct (contains "successfully"
                (lower (stdout_of
                          (fst (popen [bridge_exe_path st; "open"; path] w)))))
      eqn:Hc;
      unfold modify, ret; do 2 eexists;
      (split; [reflexivity|]); (split; [reflexivity|]);
      (split; [cbn; discriminate|]);
      intros w1 Hw1; inversion Hw1; subst w1;
      (split; [rewrite <- contains_iff, Hc; intuition congruence | reflexivity]).
  - unfold ret. do 2 eexists. split; [reflexivity|].
    split; [reflexivity|].
    split; [intros _; split; reflexivity | intros w1 Hw1; discriminate].
Qed.

Lemma open_ezd_file_session_witness :
  (fst (os_path_exists "missing.ezd" (os (opened []))) = false
   /\ exists b st',
       open_ezd_file "missing.ezd" (opened []) = (inr b, st')
       /\ b = false
       /\ current_ezd_file st' = Some "job.ezd"
       /\ invocations st' = [])
  /\ (os_path_exists "other.ezd"
        (os (bridge (Some "job.ezd") ["job.ezd"; "other.ezd"]
                    [says "File Opened Successfully"] []))
      = (true, Mock.mk ["job.ezd"; "other.ezd"] [says "File Opened Successfully"])
      /\ exists st',
          open_ezd_file "other.ezd"
            (bridge (Some "job.ezd") ["job.ezd"; "other.ezd"]
                    [says "File Opened Successfully"] [])
          = (inr true, st')
          /\ current_ezd_file st' = Some "other.ezd"
          /\ invocations st' = [["EZCADBridge.exe"; "open"; "other.ezd"]]).
Proof.
  split.
  - split; [reflexivity|].
    destruct (open_ezd_file_session env (opened []) "missing.ezd")
      as [b [st' [Hrun [Hcur [Hfast _]]]]].
    destruct (Hfast eq_refl) as [Hb Hinv]. subst b.
    exists false, st'. repeat split; assumption.
  - split; [reflexivity|].
    destruct (open_ezd_file_session env
                (bridge (Some "job.ezd") ["job.ezd"; "other.ezd"]
                        [says "File Opened Successfully"] [])
                "other.ezd")
      as [b [st' [Hrun [Hcur [_ Hopen]]]]].
    destruct (Hopen _ eq_refl) as [Hiff Hinv].
    assert (Hb : b = true).
    { apply Hiff. apply contains_iff. reflexivity. }
    subst b. exists st'. repeat split; assumption.
Defined.

(** C9.  When starting the process (or awaiting it) raises,
    [_run_bridge_command] does not raise: it returns the result with
    empty output, the exception's message as error text, return code -1
    and [success] false. *)
Theorem run_bridge_command_launch_failure :
  forall (E : Env) (st : state E) (args : list string) (e : string) (w : world),
    popen (bridge_exe_path st :: args) (os st) = (Raised e, w) ->
    _run_bridge_command args st
    = (inr (Result.make EmptyString e (-1) false),
       record_invocation (bridge_exe_path st :: args) (set_os w st)).
Proof.
  intros E st args e w Hrun.
  rewrite run_bridge_command_eq, Hrun. reflexivity.
Qed.

Lemma run_bridge_command_launch_failure_witness :
  popen ["EZCADBridge.exe"; "info"] (os (fresh [] []))
  = (Raised "[WinError 2] The system cannot find the file specified",
     Mock.mk [] [])
  /\ _run_bridge_command ["info"] (fresh [] [])
     = (inr (Result.make EmptyString
               "[WinError 2] The system cannot find the file specified"
               (-1) false),
        bridge None [] [] [["EZCADBridge.exe"; "info"]]).
Proof.
  split; [reflexivity|].
  exact (run_bridge_command_launch_failure env (fresh [] []) ["info"]
           "[WinError 2] The system cannot find the file specified"
           (Mock.mk [] []) eq_refl).
Defined.

(** C10.  [mark] with the empty string as entity name is [mark] with no
    entity name: on an open session both start the process with the
    single argument [mark], so the empty name never selects one entity
    (a non-empty name does). *)
Theorem mark_empty_name_is_mark_all :
  forall (E : Env) (st : state E),
    mark (Some EmptyString) st = mark None st
    /\ mark_command (Some EmptyString) = ["mark"]
    /\ mark_command None = ["mark"]
    /\ (forall c name, mark_command (Some (String c name)) = ["mark"; String c name])
    /\ match current_ezd_file st with
       | Some _ =>
           invocations (snd (mark (Some EmptyString) st))
           = (invocations st ++ [[bridge_exe_path st; "mark"]])%list
       | None =>
           invocations (snd (mark (Some EmptyString) st)) = invocations st
       end.
Proof.
  intros E st. repeat split.
  unfold mark, bind, gets.
  destruct (current_ezd_file st); [|reflexivity].
  rewrite run_bridge_command_eq.
  match goal with |- context [if ?c then _ else _] => destruct c end; reflexivity.
Qed.

(** ** Sample runs *)

Example text_primitives_sample :
  lower "Entity Updated SUCCESSFULLY [0]" = "entity updated successfully [0]"
  /\ strip ("  a b " ++ nl) = "a b"
  /\ splitlines ("a" ++ cr ++ nl ++ nl ++ "b" ++ nl) = ["a"; EmptyString; "b"]
  /\ splitlines nl = [EmptyString]
  /\ splitlines (nl ++ cr) = [EmptyString; EmptyString]
  /\ split1 "]" "[0] a]b" = ["[0"; " a]b"]
  /\ split1 "(Type:" "abc" = ["abc"]
  /\ contains "completed" "marking completed." = true
  /\ contains "x" "abc" = false.
Proof. repeat split. Qed.

(** The end-to-end scenario: entities [Serial] and [PartNumber]; one row
    with an [id], both entities and an unknown field.  Two [update]
    processes, none for [Extra], then one [mark] without argument. *)
Example process_data_end_to_end :
  process_data "job.ezd"
    [[("id", "1"); ("Serial", "SN100001"); ("PartNumber", "PN-A");
      ("Extra", "ignored")]]
    None
    (fresh ["job.ezd"]
       [says "File opened successfully";
        says ("[0] Serial (Type: Text)" ++ nl ++ "[1] PartNumber (Type: Text)");
        says "Entity updated successfully";
        says "Entity updated successfully";
        says "Marking completed"])
  = (inr (Statistics (Stats.make 1 1 0)),
     bridge (Some "job.ezd") ["job.ezd"] []
       [["EZCADBridge.exe"; "open"; "job.ezd"];
        ["EZCADBridge.exe"; "list"];
        ["EZCADBridge.exe"; "update"; "Serial"; "SN100001"];
        ["EZCADBridge.exe"; "update"; "PartNumber"; "PN-A"];
        ["EZCADBridge.exe"; "mark"]]).
Proof. reflexivity. Qed.

(** A row whose [update_text] call raises is counted as an error and the
    next row is still processed. *)
Example process_data_raising_row :
  fst (process_data_with
         (fun entity_name new_text =>
            if String.eqb new_text "boom" then raise "boom"
            else update_text entity_name new_text)
         mark
         "job.ezd"
         [[("Serial", "boom")]; [("Serial", "SN100002")]]
         None
         (fresh ["job.ezd"]
            [says "File opened successfully";
             says "[0] Serial (Type: Text)";
             says "Entity updated successfully";
             says "Marking completed"]))
  = inr (Statistics (Stats.make 2 1 1)).
Proof. reflexivity. Qed.

(** * Further properties of the bridge *)

(** ** One invocation, seen from the session methods *)

Section SessionFacts.
Context {E : Env}.

Lemma run_bridge_command_spec (args : list string) (st : state E) :
  exists r,
    _run_bridge_command args st = (inr r, invoke_state args st)
    /\ Result.output r = stdout_of (invoke_reply args st).
Proof.
  rewrite run_bridge_command_eq. unfold invoke_state, invoke_reply.
  destruct (popen (bridge_exe_path st :: args) (os st)) as [[out err rc|e] w];
    eexists; split; reflexivity.
Qed.

Lemma update_text_open (st : state E) (f entity_name new_text : string) :
  current_ezd_file st = Some f ->
  update_text entity_name new_text st
  = (inr (contains "updated successfully"
            (lower (stdout_of (invoke_reply ["update"; entity_name; new_text] st)))),
     invoke_state ["update"; entity_name; new_text] st).
Proof.
  intros Hcur. unfold update_text, bind, gets. rewrite Hcur.
  destruct (run_bridge_command_spec ["update"; entity_name; new_text] st)
    as [r [-> <-]].
  now destruct (contains "updated successfully" (lower (Result.output r))).
Qed.

Lemma mark_open (st : state E) (f : string) (entity_name : option string) :
  current_ezd_file st = Some f ->
  mark entity_name st
  = (inr (contains "completed"
            (lower (stdout_of (invoke_reply (mark_command entity_name) st)))),
     invoke_state (mark_command entity_name) st).
Proof.
  intros Hcur. unfold mark, bind, gets. rewrite Hcur.
  destruct (run_bridge_command_spec (mark_command entity_name) st) as [r [-> <-]].
  now destruct (contains "completed" (lower (Result.output r))).
Qed.

Lemma red_light_open (st : state E) (f : string) (x y : pyobj) :
  current_ezd_file st = Some f ->
  red_light x y st
  = (inr (contains "positioned successfully"
            (lower (stdout_of (invoke_reply ["red"; py_str x; py_str y] st)))),
     invoke_state ["red"; py_str x; py_str y] st).
Proof.
  intros Hcur. unfold red_light, bind, gets. rewrite Hcur.
  destruct (run_bridge_command_spec ["red"; py_str x; py_str y] st) as [r [-> <-]].
  now destruct (contains "positioned successfully" (lower (Result.output r))).
Qed.

Lemma save_ezd_file_open (st : state E) (f output_path : string) :
  current_ezd_file st = Some f ->
  save_ezd_file output_path st
  = (inr (contains "saved successfully"
            (lower (stdout_of (invoke_reply ["save"; output_path] st)))),
     invoke_state ["save"; output_path] st).
Proof.
  intros Hcur. unfold save_ezd_file, bind, gets. rewrite Hcur.
  destruct (run_bridge_command_spec ["save"; output_path] st) as [r [-> <-]].
  now destruct (contains "saved successfully" (lower (Result.output r))).
Qed.

Lemma list_entities_open (st : state E) (f : string) :
  current_ezd_file st = Some f ->
  list_entities st
  = (inr (parse_entities (stdout_of (invoke_reply ["list"] st))),
     invoke_state ["list"] st).
Proof.
  intros Hcur. unfold list_entities, bind, gets. rewrite Hcur.
  destruct (run_bridge_command_spec ["list"] st) as [r [-> <-]].
  reflexivity.
Qed.

(** [open_ezd_file] in full: the existence query, then one process. *)
Lemma open_ezd_file_eq (st : state E) (path : string) :
  open_ezd_file path st =
  let st1 := set_os (snd (os_path_exists path (os st))) st in
  if fst (os_path_exists path (os st)) then
    if contains "successfully"
         (lower (stdout_of (invoke_reply ["open"; path] st1)))
    then (inr true,
          set_current_ezd_file (Some path) (invoke_state ["open"; path] st1))
    else (inr false, invoke_state ["open"; path] st1)
  else (inr false, st1).
Proof.
  unfold open_ezd_file, bind, path_exists.
  destruct (os_path_exists path (os st)) as [[|] w]; cbn [negb fst snd];
    [|reflexivity].
  destruct (run_bridge_command_spec ["open"; path] (set_os w st)) as [r [-> <-]].
  now destruct (contains "successfully" (lower (Result.output r))).
Qed.

End SessionFacts.

(** X1.  On an open session each of [update_text], [mark], [red_light],
    [list_entities] and [save_ezd_file] starts exactly one process, with
    the command line of that operation, and leaves the session on the
    template it was on; saving does not move it to the output path. *)
Theorem session_methods_frame :
  forall (E : Env) (st : state E) (f : string),
    current_ezd_file st = Some f ->
    let started (st' : state E) (args : list string) : Prop :=
      invocations st' = (invocations st ++ [bridge_exe_path st :: args])%list
      /\ current_ezd_file st' = Some f
      /\ bridge_exe_path st' = bridge_exe_path st in
    (forall entity_name new_text,
        started (snd (update_text entity_name new_text st))
                ["update"; entity_name; new_text])
    /\ (forall entity_name,
           started (snd (mark entity_name st)) (mark_command entity_name))
    /\ (forall x y,
           started (snd (red_light x y st)) ["red"; py_str x; py_str y])
    /\ started (snd (list_entities st)) ["list"]
    /\ (forall output_path,
           started (snd (save_ezd_file output_path st)) ["save"; output_path]).
Proof.
  intros E st f Hcur started. subst started.
  repeat split; intros;
    rewrite ?(update_text_open st f), ?(mark_open st f), ?(red_light_open st f),
            ?(list_entities_open st f), ?(save_ezd_file_open st f) by assumption;
    cbn; auto.
Qed.

Lemma session_methods_frame_witness :
  invocations (snd (save_ezd_file "out.ezd" (opened [says "File saved successfully"])))
  = [["EZCADBridge.exe"; "save"; "out.ezd"]]
  /\ current_ezd_file
       (snd (save_ezd_file "out.ezd" (opened [says "File saved successfully"])))
     = Some "job.ezd".
Proof.
  destruct (session_methods_frame env (opened [says "File saved successfully"])
              "job.ezd" eq_refl)
    as [_ [_ [_ [_ Hsave]]]].
  destruct (Hsave "out.ezd") as [Hinv [Hcur _]].
  split; [exact Hinv | exact Hcur].
Defined.

(** X2.  When the bridge executable cannot be started at all, nothing
    raises and everything fails: [update_text], [mark], [red_light] and
    [save_ezd_file] return false, [list_entities] returns the empty
    list, [open_ezd_file] returns false and leaves the session as it
    was, and [process_data] returns an error result. *)
Theorem launch_failure_fails_every_operation :
  forall (E : Env),
    (forall command w, exists e, fst (popen command w) = Raised e) ->
    forall (st : state E),
      (forall entity_name new_text,
          fst (update_text entity_name new_text st) = inr false)
      /\ (forall entity_name, fst (mark entity_name st) = inr false)
      /\ (forall x y, fst (red_light x y st) = inr false)
      /\ fst (list_entities st) = inr []
      /\ (forall output_path, fst (save_ezd_file output_path st) = inr false)
      /\ (forall path,
             fst (open_ezd_file path st) = inr false
             /\ current_ezd_file (snd (open_ezd_file path st))
                = current_ezd_file st)
      /\ (forall ezd_template data_items output_path,
             exists error,
               fst (process_data ezd_template data_items output_path st)
               = inr (Aborted error)).
Proof.
  intros E Hraise st.
  assert (Hreply : forall args (s : state E), stdout_of (invoke_reply args s) = EmptyString).
  { intros args s. unfold invoke_reply.
    destruct (Hraise (bridge_exe_path s :: args) (os s)) as [e ->]. reflexivity. }
  assert (Hopen : forall path (s : state E),
             fst (open_ezd_file path s) = inr false
             /\ current_ezd_file (snd (open_ezd_file path s)) = current_ezd_file s).
  { intros path s. rewrite open_ezd_file_eq. cbv zeta.
    destruct (fst (os_path_exists path (os s))); [|split; reflexivity].
    rewrite Hreply. split; reflexivity. }
  repeat split; intros; try apply Hopen.
  - destruct (current_ezd_file st) as [f|] eqn:Hcur.
    + rewrite (update_text_open st f), Hreply by assumption. reflexivity.
    + unfold update_text, bind, gets. now rewrite Hcur.
  - destruct (current_ezd_file st) as [f|] eqn:Hcur.
    + rewrite (mark_open st f), Hreply by assumption. reflexivity.
    + unfold mark, bind, gets. now rewrite Hcur.
  - destruct (current_ezd_file st) as [f|] eqn:Hcur.
    + rewrite (red_light_open st f), Hreply by assumption. reflexivity.
    + unfold red_light, bind, gets. now rewrite Hcur.
  - destruct (current_ezd_file st) as [f|] eqn:Hcur.
    + rewrite (list_entities_open st f), Hreply by assumption. reflexivity.
    + unfold list_entities, bind, gets. now rewrite Hcur.
  - destruct (current_ezd_file st) as [f|] eqn:Hcur.
    + rewrite (save_ezd_file_open st f), Hreply by assumption. reflexivity.
    + unfold save_ezd_file, bind, gets. now rewrite Hcur.
  - unfold process_data, process_data_with, bind, path_exists.
    destruct (os_path_exists ezd_template (os st)) as [[|] w]; cbn [negb].
    + destruct (Hopen ezd_template (set_os w st)) as [Hf _].
      destruct (open_ezd_file ezd_template (set_os w st)) as [r st2].
      cbn in Hf; subst r. cbn [negb]. unfold ret. eexists; reflexivity.
    + unfold ret. eexists; reflexivity.
Qed.

Lemma launch_failure_fails_every_operation_witness :
  (forall command (w : @world NoExecutable.env),
      exists e, fst (@popen NoExecutable.env command w) = Raised e)
  /\ fst (mark None (NoExecutable.bridge (Some "job.ezd"))) = inr false
  /\ fst (list_entities (NoExecutable.bridge (Some "job.ezd"))) = inr []
  /\ exists error,
      fst (@process_data NoExecutable.env "job.ezd"
             [[("Serial", "SN100001")]] None (NoExecutable.bridge None))
      = inr (Aborted error).
Proof.
  assert (H : forall command (w : @world NoExecutable.env),
             exists e, fst (@popen NoExecutable.env command w) = Raised e)
    by (intros; eexists; reflexivity).
  split; [exact H|].
  split; [|split].
  - destruct (launch_failure_fails_every_operation NoExecutable.env H
                (NoExecutable.bridge (Some "job.ezd"))) as [_ [Hm _]].
    exact (Hm None).
  - destruct (launch_failure_fails_every_operation NoExecutable.env H
                (NoExecutable.bridge (Some "job.ezd"))) as [_ [_ [_ [Hl _]]]].
    exact Hl.
  - destruct (launch_failure_fails_every_operation NoExecutable.env H
                (NoExecutable.bridge None)) as [_ [_ [_ [_ [_ [_ Hp]]]]]].
    exact (Hp "job.ezd" [[("Serial", "SN100001")]] None).
Defined.

(** ** The row loop with the methods of the class *)

Section BatchFacts.
Context {E : Env}.

Lemma invoke_state_frame (args : list string) (st : state E) :
  current_ezd_file (invoke_state args st) = current_ezd_file st
  /\ bridge_exe_path (invoke_state args st) = bridge_exe_path st
  /\ invocations (invoke_state args st)
     = (invocations st ++ [bridge_exe_path st :: args])%list.
Proof. repeat split. Qed.

Lemma count_marks_updates (exe : string) (fields : list (string * pyobj)) :
  count_marks exe (map (update_command exe) fields) = 0.
Proof.
  unfold count_marks. apply count_occ_not_In.
  intros Hin. apply in_map_iff in Hin. destruct Hin as [field [Heq _]].
  unfold update_command in Heq. inversion Heq.
Qed.

Lemma known_fields_are_row_commands (exe : string) (available : list string)
      (items : data_item) :
  Forall (is_row_command exe)
         (map (update_command exe) (filter (is_known_field available) items)).
Proof.
  apply Forall_forall. intros command Hin.
  apply in_map_iff in Hin. destruct Hin as [[k v] [<- Hin]].
  apply filter_In in Hin. destruct Hin as [_ Hknown].
  left. exists k, (py_str v). split; [reflexivity|].
  unfold is_known_field in Hknown. cbn [fst] in Hknown.
  apply andb_prop in Hknown. destruct Hknown as [Hid _].
  apply negb_true_iff in Hid. now apply String.eqb_neq in Hid.
Qed.

(** The inner loop: one [update] per known field, in the order of the
    item. *)
Lemma update_entities_trace (available : list string) (items : data_item)
      (update_success : bool) (st : state E) (f : string) :
  current_ezd_file st = Some f ->
  exists b st',
    update_entities update_text available items update_success st = (inr b, st')
    /\ invocations st'
       = (invocations st
          ++ map (update_command (bridge_exe_path st))
                 (filter (is_known_field available) items))%list
    /\ current_ezd_file st' = Some f
    /\ bridge_exe_path st' = bridge_exe_path st.
Proof.
  revert update_success st.
  induction items as [|[k v] rest IH]; intros b st Hcur.
  - exists b, st. cbn. now rewrite app_nil_r.
  - cbn [update_entities filter]. unfold is_known_field at 1. cbn [fst snd].
    destruct (negb (String.eqb k "id")); cbn [andb]; [|now apply IH].
    destruct (existsb (String.eqb k) available); [|now apply IH].
    unfold bind. rewrite (update_text_open st f) by assumption.
    set (st1 := invoke_state ["update"; k; py_str v] st).
    destruct (IH (if contains "updated successfully"
                       (lower (stdout_of (invoke_reply ["update"; k; py_str v] st)))
                  then b else false) st1 Hcur)
      as [b' [st' [Hrun [Hinv [Hcur' Hexe]]]]].
    exists b', st'. split; [exact Hrun|].
    split; [|split; assumption].
    rewrite Hinv. cbn [map]. subst st1. cbn. now rewrite <- app_assoc.
Qed.

(** One row: its updates, then at most one [mark]; a success is always
    backed by a [mark]. *)
Lemma process_item_trace (available : list string) (item : data_item)
      (stats : Stats.t) (st : state E) (f : string) :
  current_ezd_file st = Some f ->
  exists stats' st' marks,
    process_item update_text mark available item stats st = (inr stats', st')
    /\ invocations st'
       = (invocations st
          ++ map (update_command (bridge_exe_path st))
                 (filter (is_known_field available) item)
          ++ marks)%list
    /\ current_ezd_file st' = Some f
    /\ bridge_exe_path st' = bridge_exe_path st
    /\ ((stats' = Stats.inc_success stats /\ marks = [[bridge_exe_path st; "mark"]])
        \/ (stats' = Stats.inc_errors stats
            /\ (marks = [[bridge_exe_path st; "mark"]] \/ marks = []))).
Proof.
  intros Hcur. unfold process_item, try_except, bind.
  destruct (update_entities_trace available item true st f Hcur)
    as [b [st1 [-> [Hinv [Hcur1 Hexe1]]]]].
  destruct b.
  - rewrite (mark_open st1 f) by assumption.
    cbn [mark_command].
    destruct (contains "completed"
                (lower (stdout_of (invoke_reply ["mark"] st1))));
      unfold ret; do 3 eexists;
      (split; [reflexivity|]);
      (split; [cbn; rewrite Hinv, Hexe1, <- app_assoc; reflexivity|]);
      (split; [exact Hcur1|]); (split; [exact Hexe1|]); auto.
  - unfold ret. exists (Stats.inc_errors stats), st1, [].
    split; [reflexivity|]. rewrite app_nil_r. repeat split; auto.
Qed.

Lemma process_items_trace (available : list string) (items : list data_item)
      (stats : Stats.t) (st : state E) (f : string) :
  current_ezd_file st = Some f ->
  exists stats' st' commands,
    process_items update_text mark available items stats st = (inr stats', st')
    /\ invocations st' = (invocations st ++ commands)%list
    /\ Forall (is_row_command (bridge_exe_path st)) commands
    /\ current_ezd_file st' = Some f
    /\ bridge_exe_path st' = bridge_exe_path st
    /\ Stats.success stats'
       <= Stats.success stats + count_marks (bridge_exe_path st) commands
    /\ count_marks (bridge_exe_path st) commands <= length items
    /\ length commands <= length (concat items) + length items.
Proof.
  revert stats st. induction items as [|item rest IH]; intros stats st Hcur.
  - exists stats, st, []. cbn. rewrite app_nil_r.
    repeat split; auto; lia.
  - cbn [process_items]. unfold bind.
    destruct (process_item_trace available item stats st f Hcur)
      as [s1 [st1 [marks [-> [Hinv1 [Hcur1 [Hexe1 Hcase]]]]]]].
    destruct (IH s1 st1 Hcur1)
      as [s2 [st2 [cmds [-> [Hinv2 [Hall [Hcur2 [Hexe2 [Hsucc [Hmarks Hlen]]]]]]]]]].
    rewrite Hexe1 in *.
    set (exe := bridge_exe_path st) in *.
    set (upd := map (update_command exe) (filter (is_known_field available) item)) in *.
    exists s2, st2, (upd ++ marks ++ cmds)%list.
    split; [reflexivity|].
    split; [rewrite Hinv2, Hinv1, <- !app_assoc; reflexivity|].
    assert (Hmarks_ok : Forall (is_row_command exe) marks).
    { destruct Hcase as [[_ ->] | [_ [-> | ->]]];
        repeat constructor; now right. }
    assert (Hcount : count_marks exe (upd ++ marks ++ cmds)
                     = count_marks exe marks + count_marks exe cmds).
    { unfold count_marks. rewrite !count_occ_app.
      fold (count_marks exe upd). subst upd. rewrite count_marks_updates.
      reflexivity. }
    assert (Hupd_len : length upd <= length item).
    { subst upd. rewrite length_map. apply filter_length_le. }
    split.
    { apply Forall_app. split; [apply known_fields_are_row_commands|].
      apply Forall_app. split; assumption. }
    split; [exact Hcur2|].
    split; [exact Hexe2|].
    rewrite Hcount. cbn [concat length]. rewrite !length_app.
    assert (Hone : count_marks exe [[exe; "mark"]] = 1).
    { unfold count_marks. now rewrite count_occ_cons_eq by reflexivity. }
    destruct Hcase as [[-> ->] | [-> [-> | ->]]];
      rewrite ?Hone; cbn [Stats.inc_success Stats.inc_errors Stats.success
                          count_marks count_occ length] in *;
      repeat split; lia.
Qed.

Lemma open_true_state (path : string) (st st2 : state E) :
  open_ezd_file path st = (inr true, st2) ->
  current_ezd_file st2 = Some path
  /\ bridge_exe_path st2 = bridge_exe_path st
  /\ invocations st2
     = (invocations st ++ [[bridge_exe_path st; "open"; path]])%list.
Proof.
  rewrite open_ezd_file_eq. cbv zeta.
  destruct (fst (os_path_exists path (os st))); [|discriminate].
  match goal with |- context [if ?c then _ else _] => destruct c end;
    [|discriminate].
  intros H; inversion H; subst st2. repeat split.
Qed.

Lemma open_false_state (path : string) (st st2 : state E) :
  open_ezd_file path st = (inr false, st2) ->
  current_ezd_file st2 = current_ezd_file st.
Proof.
  rewrite open_ezd_file_eq. cbv zeta.
  destruct (fst (os_path_exists path (os st)));
    [match goal with |- context [if ?c then _ else _] => destruct c end|];
    intros H; inversion H; reflexivity.
Qed.

(** The whole batch, when the template exists and opens. *)
Lemma process_data_trace (ezd_template : string) (data_items : list data_item)
      (output_path : option string) (st : state E) :
  template_opens ezd_template st = true ->
  exists stats st' commands,
    process_data ezd_template data_items output_path st
    = (inr (Statistics stats), st')
    /\ invocations st'
       = (invocations st
          ++ [bridge_exe_path st; "open"; ezd_template]
          :: [bridge_exe_path st; "list"]
          :: commands ++ save_commands (bridge_exe_path st) output_path)%list
    /\ Forall (is_row_command (bridge_exe_path st)) commands
    /\ current_ezd_file st' = Some ezd_template
    /\ bridge_exe_path st' = bridge_exe_path st
    /\ Stats.total stats = length data_items
    /\ Stats.success stats <= count_marks (bridge_exe_path st) commands
    /\ count_marks (bridge_exe_path st) commands <= length data_items
    /\ length commands <= length (concat data_items) + length data_items
    /\ Stats.success stats + Stats.errors stats = Stats.total stats.
Proof.
  intros Hopens. unfold template_opens in Hopens.
  unfold process_data, process_data_with, bind.
  destruct (path_exists ezd_template st) as [[e|[|]] st1] eqn:Hex;
    try discriminate. cbn [negb].
  assert (Hst1 : current_ezd_file st1 = current_ezd_file st
                 /\ bridge_exe_path st1 = bridge_exe_path st
                 /\ invocations st1 = invocations st).
  { unfold path_exists in Hex.
    destruct (os_path_exists ezd_template (os st)) as [b w].
    inversion Hex; subst. repeat split. }
  destruct Hst1 as [_ [Hexe1 Hinv1]].
  destruct (open_ezd_file ezd_template st1) as [[e|[|]] st2] eqn:Hop;
    try discriminate. cbn [negb].
  destruct (open_true_state _ _ _ Hop) as [Hcur2 [Hexe2 Hinv2]].
  rewrite (list_entities_open st2 ezd_template) by assumption.
  set (available := parse_entities (stdout_of (invoke_reply ["list"] st2))).
  set (st3 := invoke_state ["list"] st2).
  assert (Hcur3 : current_ezd_file st3 = Some ezd_template) by exact Hcur2.
  destruct (process_items_trace available data_items
              (Stats.make (length data_items) 0 0) st3 ezd_template Hcur3)
    as [stats [st4 [cmds [Hrun [Hinv4 [Hall [Hcur4 [Hexe4 [Hsucc [Hmarks Hlen]]]]]]]]]].
  rewrite Hrun.
  assert (Hexe3 : bridge_exe_path st3 = bridge_exe_path st)
    by (subst st3; cbn; congruence).
  rewrite Hexe3 in *.
  assert (Hinv3 : invocations st3
                  = (invocations st
                     ++ [[bridge_exe_path st; "open"; ezd_template];
                         [bridge_exe_path st; "list"]])%list).
  { subst st3. cbn. rewrite Hinv2, Hexe2, Hexe1, Hinv1, <- app_assoc. reflexivity. }
  assert (Htot : Stats.total stats = length data_items
                 /\ Stats.success stats + Stats.errors stats = Stats.total stats).
  { destruct (process_items_counts update_text mark available data_items
                (Stats.make (length data_items) 0 0) st3)
      as [s' [st' [Hrun' [Ht Hs]]]].
    rewrite Hrun in Hrun'. inversion Hrun'; subst. cbn in Ht, Hs.
    split; [exact Ht | lia]. }
  destruct Htot as [Htot Hsum].
  cbn [Stats.success] in Hsucc.
  assert (Hbase : invocations st4
                  = (invocations st
                     ++ [bridge_exe_path st; "open"; ezd_template]
                     :: [bridge_exe_path st; "list"] :: cmds)%list).
  { rewrite Hinv4, Hinv3, <- app_assoc. reflexivity. }
  destruct output_path as [path|].
  - unfold save_commands. destruct (truthy (Some path)).
    + rewrite (save_ezd_file_open st4 ezd_template) by assumption.
      unfold ret. exists stats, (invoke_state ["save"; path] st4), cmds.
      split; [reflexivity|].
      split.
      { cbn [invoke_state record_invocation set_os invocations bridge_exe_path].
        rewrite Hbase, Hexe4, <- app_assoc. reflexivity. }
      repeat split; auto.
    + unfold ret. exists stats, st4, cmds.
      split; [reflexivity|]. rewrite app_nil_r. repeat split; auto.
  - unfold ret, save_commands. exists stats, st4, cmds.
    split; [reflexivity|]. rewrite app_nil_r. repeat split; auto.
Qed.

End BatchFacts.

(** ** Properties of the batch *)

(** X3.  A batch whose template exists and opens starts its processes
    in a fixed order: one [open], one [list], then for the rows only
    [update] commands for entities other than [id] and [mark] commands
    without argument, and last one [save] when a non-empty output path
    was given.  The rows start at most one process per field plus one
    per row. *)
Theorem process_data_command_order :
  forall (E : Env) (ezd_template : string) (data_items : list data_item)
         (output_path : option string) (st : state E),
    template_opens ezd_template st = true ->
    exists stats st' commands,
      process_data ezd_template data_items output_path st
      = (inr (Statistics stats), st')
      /\ invocations st'
         = (invocations st
            ++ [bridge_exe_path st; "open"; ezd_template]
            :: [bridge_exe_path st; "list"]
            :: commands ++ save_commands (bridge_exe_path st) output_path)%list
      /\ Forall (is_row_command (bridge_exe_path st)) commands
      /\ length commands <= length (concat data_items) + length data_items.
Proof.
  intros E tpl rows out st Hopens.
  destruct (process_data_trace tpl rows out st Hopens)
    as [stats [st' [cmds [Hrun [Hinv [Hall [_ [_ [_ [_ [_ [Hlen _]]]]]]]]]]]].
  exists stats, st', cmds. auto.
Qed.

Lemma process_data_command_order_witness :
  template_opens "job.ezd"
    (fresh ["job.ezd"]
       [says "File opened successfully"; says "[0] Serial (Type: Text)";
        says "Entity updated successfully"; says "Marking completed";
        says "File saved successfully"]) = true
  /\ exists stats st' commands,
      process_data "job.ezd" [[("id", "7"); ("Serial", "SN100001")]]
        (Some "out.ezd")
        (fresh ["job.ezd"]
           [says "File opened successfully"; says "[0] Serial (Type: Text)";
            says "Entity updated successfully"; says "Marking completed";
            says "File saved successfully"])
      = (inr (Statistics stats), st')
      /\ invocations st'
         = ([] ++ ["EZCADBridge.exe"; "open"; "job.ezd"]
               :: ["EZCADBridge.exe"; "list"]
               :: commands ++ [["EZCADBridge.exe"; "save"; "out.ezd"]])%list
      /\ Forall (is_row_command "EZCADBridge.exe") commands
      /\ length commands <= 2 + 1.
Proof.
  split; [reflexivity|].
  exact (process_data_command_order env "job.ezd"
           [[("id", "7"); ("Serial", "SN100001")]] (Some "out.ezd")
           (fresh ["job.ezd"]
              [says "File opened successfully"; says "[0] Serial (Type: Text)";
               says "Entity updated successfully"; says "Marking completed";
               says "File saved successfully"])
           eq_refl).
Defined.

(** X4.  No row is counted as a success without a [mark] process having
    been started for it: in every run the number of successes reported is
    at most the number of [mark] commands started, which is at most the
    number of data items. *)
Theorem process_data_success_needs_mark :
  forall (E : Env) (ezd_template : string) (data_items : list data_item)
         (output_path : option string) (st : state E),
  exists r added,
    fst (process_data ezd_template data_items output_path st) = inr r
    /\ invocations (snd (process_data ezd_template data_items output_path st))
       = (invocations st ++ added)%list
    /\ get_success r <= count_marks (bridge_exe_path st) added
    /\ count_marks (bridge_exe_path st) added <= length data_items.
Proof.
  intros E tpl rows out st.
  destruct (template_opens tpl st) eqn:Hopens.
  - destruct (process_data_trace tpl rows out st Hopens)
      as [stats [st' [cmds [Hrun [Hinv [_ [_ [_ [_ [Hsucc [Hmarks _]]]]]]]]]]].
    rewrite Hrun. cbn [fst snd]. do 2 eexists.
    split; [reflexivity|]. split; [exact Hinv|].
    assert (Hcount :
              count_marks (bridge_exe_path st)
                ([bridge_exe_path st; "open"; tpl]
                 :: [bridge_exe_path st; "list"]
                 :: cmds ++ save_commands (bridge_exe_path st) out)
              = count_marks (bridge_exe_path st) cmds).
    { unfold count_marks.
      rewrite !count_occ_cons_neq by (intros H; inversion H).
      rewrite count_occ_app.
      assert (Hsave : count_occ (list_eq_dec string_dec)
                        (save_commands (bridge_exe_path st) out)
                        [bridge_exe_path st; "mark"] = 0).
      { unfold save_commands. destruct out as [p|]; [|reflexivity].
        destruct (truthy (Some p)); [|reflexivity].
        now rewrite count_occ_cons_neq by (intros H; inversion H). }
      rewrite Hsave. lia. }
    rewrite Hcount. cbn [get_success]. split; assumption.
  - unfold template_opens in Hopens.
    unfold process_data, process_data_with, bind.
    destruct (path_exists tpl st) as [[e|[|]] st1] eqn:Hex; cbn [negb].
    + unfold path_exists in Hex.
      destruct (os_path_exists tpl (os st)); discriminate.
    + assert (Hinv1 : invocations st1 = invocations st
                      /\ bridge_exe_path st1 = bridge_exe_path st).
      { unfold path_exists in Hex.
        destruct (os_path_exists tpl (os st)) as [b w].
        inversion Hex; subst. split; reflexivity. }
      destruct Hinv1 as [Hinv1 Hexe1].
      destruct (open_ezd_file_returns tpl st1) as [b [st2 Hop]].
      rewrite Hop in *. destruct b; [discriminate|]. cbn [negb].
      unfold ret. cbn [fst snd].
      rewrite open_ezd_file_eq in Hop. cbv zeta in Hop.
      destruct (fst (os_path_exists tpl (os st1))).
      * match type of Hop with context [if ?c then _ else _] => destruct c end;
          [discriminate|].
        inversion Hop; subst st2.
        exists (Aborted "Failed to open template file"),
               [[bridge_exe_path st; "open"; tpl]].
        split; [reflexivity|].
        split; [cbn; now rewrite Hinv1, Hexe1|].
        unfold count_marks.
        rewrite count_occ_cons_neq by (intros H; inversion H).
        cbn. split; lia.
      * inversion Hop; subst st2.
        exists (Aborted "Failed to open template file"), [].
        split; [reflexivity|].
        split; [cbn; now rewrite Hinv1, app_nil_r|].
        cbn. split; lia.
    + unfold ret. cbn [fst snd].
      exists (Aborted "Template file not found"), [].
      split; [reflexivity|].
      assert (Hinv1 : invocations st1 = invocations st).
      { unfold path_exists in Hex.
        destruct (os_path_exists tpl (os st)) as [b w].
        inversion Hex; subst. reflexivity. }
      split; [now rewrite Hinv1, app_nil_r|].
      cbn. split; lia.
Qed.

(** X5.  After a batch that returned statistics the session is open on
    the batch's template; after an aborted batch the session is what
    it was before.  [process_data] itself never raises. *)
Theorem process_data_session_after :
  forall (E : Env) (ezd_template : string) (data_items : list data_item)
         (output_path : option string) (st : state E),
    match process_data ezd_template data_items output_path st with
    | (inr (Statistics _), st') => current_ezd_file st' = Some ezd_template
    | (inr (Aborted _), st') => current_ezd_file st' = current_ezd_file st
    | (inl _, _) => False
    end.
Proof.
  intros E tpl rows out st.
  destruct (template_opens tpl st) eqn:Hopens.
  - destruct (process_data_trace tpl rows out st Hopens)
      as [stats [st' [cmds [-> [_ [_ [Hcur _]]]]]]].
    exact Hcur.
  - unfold template_opens in Hopens.
    unfold process_data, process_data_with, bind.
    destruct (path_exists tpl st) as [[e|[|]] st1] eqn:Hex; cbn [negb];
      unfold path_exists in Hex;
      destruct (os_path_exists tpl (os st)) as [b w];
      inversion Hex; subst; clear Hex.
    + destruct (open_ezd_file_returns tpl (set_os w st)) as [b [st2 Hop]].
      rewrite Hop in *. destruct b; [discriminate|]. cbn [negb]. unfold ret.
      now rewrite (open_false_state _ _ _ Hop).
    + reflexivity.
Qed.

(** X6.  The output path has no influence on what a batch returns: with
    any output path the result is the one obtained without saving,
    whatever the save does.  An empty output path is the same as none:
    no [save] is started. *)
Theorem process_data_result_ignores_save :
  forall (E : Env) (ezd_template : string) (data_items : list data_item)
         (output_path : option string) (st : state E),
    fst (process_data ezd_template data_items output_path st)
    = fst (process_data ezd_template data_items None st)
    /\ process_data ezd_template data_items (Some EmptyString) st
       = process_data ezd_template data_items None st.
Proof.
  intros E tpl rows out st.
  split.
  - unfold process_data, process_data_with, bind.
    destruct (path_exists tpl st) as [[e|[|]] st1]; cbn [negb]; try reflexivity.
    destruct (open_ezd_file tpl st1) as [[e|[|]] st2]; cbn [negb]; try reflexivity.
    destruct (list_entities st2) as [[e|avail] st3]; try reflexivity.
    destruct (process_items update_text mark avail rows
                (Stats.make (length rows) 0 0) st3) as [[e|stats] st4];
      try reflexivity.
    destruct out as [p|]; [|reflexivity].
    destruct (truthy (Some p)); [|reflexivity].
    destruct (save_ezd_file_returns p st4) as [b [st5 ->]]. reflexivity.
  - unfold process_data, process_data_with, bind.
    destruct (path_exists tpl st) as [[e|[|]] st1]; reflexivity.
Qed.

(** X7.  One row on an open session: the processes started are one
    [update] for every field of the item that is not [id] and names an
    available entity, in the order of the item and with [str] of the
    value as text, followed by at most one [mark] without argument.  The
    row is counted once; it is counted as a success only when the [mark]
    was started. *)
Theorem process_item_commands :
  forall (E : Env) (available : list string) (item : data_item)
         (stats : Stats.t) (st : state E) (f : string),
    current_ezd_file st = Some f ->
    exists stats' st' marks,
      process_item update_text mark available item stats st = (inr stats', st')
      /\ invocations st'
         = (invocations st
            ++ map (update_command (bridge_exe_path st))
                   (filter (is_known_field available) item)
            ++ marks)%list
      /\ ((stats' = Stats.inc_success stats
           /\ marks = [[bridge_exe_path st; "mark"]])
          \/ (stats' = Stats.inc_errors stats
              /\ (marks = [[bridge_exe_path st; "mark"]] \/ marks = []))).
Proof.
  intros E available item stats st f Hcur.
  destruct (process_item_trace available item stats st f Hcur)
    as [s' [st' [marks [Hrun [Hinv [_ [_ Hcase]]]]]]].
  exists s', st', marks. auto.
Qed.

Lemma process_item_commands_witness :
  exists stats' st' marks,
    process_item update_text mark ["Serial"; "PartNumber"]
      [("id", "1"); ("Serial", "SN100001"); ("Extra", "x"); ("PartNumber", "PN-A")]
      (Stats.make 3 1 1)
      (opened [says "Entity updated successfully"; says "Update failed"])
    = (inr stats', st')
    /\ invocations st'
       = ([] ++ map (update_command "EZCADBridge.exe")
                    [("Serial", "SN100001"); ("PartNumber", "PN-A")]
             ++ marks)%list
    /\ ((stats' = Stats.inc_success (Stats.make 3 1 1)
         /\ marks = [["EZCADBridge.exe"; "mark"]])
        \/ (stats' = Stats.inc_errors (Stats.make 3 1 1)
            /\ (marks = [["EZCADBridge.exe"; "mark"]] \/ marks = []))).
Proof.
  exact (process_item_commands env ["Serial"; "PartNumber"]
           [("id", "1"); ("Serial", "SN100001"); ("Extra", "x"); ("PartNumber", "PN-A")]
           (Stats.make 3 1 1)
           (opened [says "Entity updated successfully"; says "Update failed"])
           "job.ezd" eq_refl).
Defined.

Lemma update_entities_no_known_field (E : Env) (available : list string)
      (items : data_item) (update_success : bool) (st : state E) :
  filter (is_known_field available) items = [] ->
  update_entities update_text available items update_success st
  = (inr update_success, st).
Proof.
  induction items as [|[k v] rest IH]; intros Hnone; [reflexivity|].
  cbn [update_entities filter] in *. unfold is_known_field at 1 in Hnone.
  cbn [fst] in Hnone.
  destruct (negb (String.eqb k "id")); cbn [andb] in Hnone; [|now apply IH].
  destruct (existsb (String.eqb k) available); [discriminate | now apply IH].
Qed.

(** X8.  Fields that are not entities of the template do not fail a row:
    for an item none of whose fields (other than [id]) is an available
    entity, exactly one process is started, the [mark] of all entities,
    and the row is a success exactly when that [mark] reports
    [completed]. *)
Theorem unknown_fields_do_not_fail_row :
  forall (E : Env) (available : list string) (item : data_item)
         (stats : Stats.t) (st : state E) (f : string),
    current_ezd_file st = Some f ->
    filter (is_known_field available) item = [] ->
    process_item update_text mark available item stats st
    = (inr (if contains "completed"
                 (lower (stdout_of (invoke_reply ["mark"] st)))
            then Stats.inc_success stats else Stats.inc_errors stats),
       invoke_state ["mark"] st).
Proof.
  intros E available item stats st f Hcur Hnone.
  unfold process_item, try_except, bind.
  rewrite update_entities_no_known_field by assumption.
  rewrite (mark_open st f) by assumption. cbn [mark_command].
  now destruct (contains "completed"
                  (lower (stdout_of (invoke_reply ["mark"] st)))).
Qed.

Lemma unknown_fields_do_not_fail_row_witness :
  process_item update_text mark ["Serial"]
    [("id", "1"); ("Extra", "ignored"); ("serial", "lower-case key")]
    (Stats.make 1 0 0) (opened [says "Marking completed"])
  = (inr (Stats.make 1 1 0),
     bridge (Some "job.ezd") ["job.ezd"] [] [["EZCADBridge.exe"; "mark"]]).
Proof.
  exact (unknown_fields_do_not_fail_row env ["Serial"]
           [("id", "1"); ("Extra", "ignored"); ("serial", "lower-case key")]
           (Stats.make 1 0 0) (opened [says "Marking completed"])
           "job.ezd" eq_refl eq_refl).
Defined.

(** X9.  A batch without data items, on a template that exists and
    opens, returns the statistics [total = 0, success = 0, errors = 0]
    after starting [open] and [list] (and [save] when asked) and nothing
    else. *)
Theorem process_data_empty_batch :
  forall (E : Env) (ezd_template : string) (output_path : option string)
         (st : state E),
    template_opens ezd_template st = true ->
    exists st',
      process_data ezd_template [] output_path st
      = (inr (Statistics (Stats.make 0 0 0)), st')
      /\ invocations st'
         = (invocations st
            ++ [bridge_exe_path st; "open"; ezd_template]
            :: [bridge_exe_path st; "list"]
            :: save_commands (bridge_exe_path st) output_path)%list.
Proof.
  intros E tpl out st Hopens.
  destruct (process_data_trace tpl [] out st Hopens)
    as [stats [st' [cmds [Hrun [Hinv [_ [_ [_ [Htot [Hsucc [Hmarks [Hlen Hsum]]]]]]]]]]]].
  cbn in Hlen, Hmarks, Htot.
  assert (cmds = []) by (destruct cmds; [reflexivity | cbn in Hlen; lia]).
  subst cmds. cbn [app] in Hinv.
  exists st'. split; [|exact Hinv].
  rewrite Hrun. do 3 f_equal.
  destruct stats as [t s e]. cbn in *. f_equal; lia.
Qed.

Lemma process_data_empty_batch_witness :
  template_opens "job.ezd"
    (fresh ["job.ezd"] [says "Opened successfully"; says "[0] Serial (Type: Text)"])
  = true
  /\ exists st',
      process_data "job.ezd" [] None
        (fresh ["job.ezd"] [says "Opened successfully"; says "[0] Serial (Type: Text)"])
      = (inr (Statistics (Stats.make 0 0 0)), st')
      /\ invocations st'
         = ([] ++ ["EZCADBridge.exe"; "open"; "job.ezd"]
               :: ["EZCADBridge.exe"; "list"] :: [])%list.
Proof.
  split; [reflexivity|].
  exact (process_data_empty_batch env "job.ezd" None
           (fresh ["job.ezd"]
              [says "Opened successfully"; says "[0] Serial (Type: Text)"])
           eq_refl).
Defined.

(** ** More about the entity parser *)

Lemma rstrip_idem (s : string) : rstrip (rstrip s) = rstrip s.
Proof.
  induction s as [|c s IH]; [reflexivity|].
  cbn [rstrip]. destruct (rstrip s) as [|d r] eqn:Hr.
  - destruct (isspace c) eqn:Hc; [reflexivity|]. cbn. now rewrite Hc.
  - cbn [rstrip] in *. now rewrite IH.
Qed.

Lemma strip_idem (s : string) : strip (strip s) = strip s.
Proof.
  unfold strip. now rewrite rstrip_lstrip, rstrip_idem, lstrip_idem.
Qed.

Lemma lstrip_suffix (s : string) : exists w, s = w ++ lstrip s.
Proof.
  induction s as [|c s [w IH]]; [now exists EmptyString|].
  cbn [lstrip]. destruct (isspace c).
  - exists (String c w). cbn. now rewrite <- IH.
  - now exists EmptyString.
Qed.

Lemma rstrip_prefix (s : string) : exists w, s = rstrip s ++ w.
Proof.
  induction s as [|c s [w IH]]; [now exists EmptyString|].
  cbn [rstrip]. destruct (rstrip s) as [|d r].
  - destruct (isspace c).
    + exists (String c s). reflexivity.
    + exists w. cbn in *. now rewrite <- IH.
  - exists w. cbn in *. now rewrite <- IH.
Qed.

Lemma contains_strip (sub s : string) :
  contains sub (strip s) = true -> contains sub s = true.
Proof.
  rewrite !contains_iff. intros [pre [post H]]. unfold strip in H.
  destruct (rstrip_prefix s) as [w1 H1].
  destruct (lstrip_suffix (rstrip s)) as [w2 H2].
  exists (w2 ++ pre), (post ++ w1).
  rewrite H1 at 1. rewrite H2 at 1. rewrite H.
  now rewrite !append_assoc.
Qed.

Lemma chop_prefix_extend (p u v r : string) :
  chop_prefix p u = Some r -> chop_prefix p (u ++ v) = Some (r ++ v).
Proof.
  intros H. apply chop_prefix_inv in H. subst u.
  rewrite append_assoc. apply chop_prefix_app.
Qed.

Lemma before_prefix (sep s : string) : exists rest, s = before sep s ++ rest.
Proof.
  unfold before. destruct (partition sep s) as [[a b]|] eqn:Hp.
  - exists (sep ++ b). now apply partition_inv.
  - exists EmptyString. now rewrite append_nil_r.
Qed.

(** The text before the first occurrence of a separator has no
    occurrence of it. *)
Lemma before_lacks_separator (a : ascii) (t s : string) :
  partition (String a t) (before (String a t) s) = None.
Proof.
  induction s as [|c s IH]; [reflexivity|].
  rewrite before_eq.
  destruct (startswith (String a t) (String c s)) eqn:Hsw; [reflexivity|].
  rewrite partition_eq, IH.
  destruct (chop_prefix (String a t) (String c (before (String a t) s)))
    as [r|] eqn:Hc; [|reflexivity].
  exfalso. destruct (before_prefix (String a t) s) as [rest Hrest].
  apply (chop_prefix_extend _ _ rest) in Hc. cbn [append] in Hc.
  rewrite <- Hrest in Hc. unfold startswith in Hsw. now rewrite Hc in Hsw.
Qed.

(** X10.  What [list_entities] can return: every name is trimmed (it
    has no white space at either end, U+0085 and U+00A0 included) and
    contains no [(Type:] token, and there are at most as many names as
    the output has lines; for text over code points below 256. *)
Theorem parse_entities_names_are_clean :
  forall output : string,
    Forall (fun name => strip name = name /\ contains "(Type:" name = false)
           (parse_entities output)
    /\ length (parse_entities output) <= length (splitlines output).
Proof.
  intros output. rewrite parse_entities_spec. unfold spec_entities. split.
  - apply Forall_forall. intros name Hin.
    apply in_map_iff in Hin. destruct Hin as [line [<- _]].
    unfold spec_name. split; [apply strip_idem|].
    destruct (contains "(Type:"
                (strip (before "(Type:" (after_first "]" line)))) eqn:Hc;
      [|reflexivity].
    apply contains_strip in Hc. unfold contains in Hc.
    now rewrite before_lacks_separator in Hc.
  - rewrite length_map.
    etransitivity; [apply filter_length_le|]. now rewrite length_map.
Qed.

(** ** Construction of the bridge *)

(** X11.  Constructing a bridge with an explicit executable path
    succeeds exactly when that path exists; the new bridge then has that
    path, no open session and has started no process, whether or not
    [MarkEzd.dll] is found next to it.  Otherwise [FileNotFoundError] is
    raised with the path in its message.  The standard locations are not
    consulted, even for the empty path. *)
Theorem init_with_explicit_path :
  forall (E : Env) (P : OsPath) (path : string) (w : world),
    match EZCADBridge__init__ (Some path) w with
    | inr bridge =>
        fst (os_path_exists path w) = true
        /\ bridge_exe_path bridge = path
        /\ current_ezd_file bridge = None
        /\ invocations bridge = []
    | inl (e, w') =>
        fst (os_path_exists path w) = false
        /\ w' = snd (os_path_exists path w)
        /\ e = "Bridge executable not found at: " ++ path
    end.
Proof.
  intros E P path w. unfold EZCADBridge__init__.
  destruct (os_path_exists path w) as [[|] w2]; cbn [negb fst snd].
  - destruct (os_path_exists
                (path_join [path_dirname path; "MarkEzd.dll"]) w2) as [dll w3].
    repeat split.
  - repeat split.
Qed.

Lemma first_existing_stable (E : Env) (locations : list string) (w : world) :
  (forall p w0, snd (os_path_exists p w0) = w0) ->
  first_existing locations w
  = (find (fun p => fst (os_path_exists p w)) locations, w).
Proof.
  intros Hstable. induction locations as [|location rest IH]; [reflexivity|].
  cbn [first_existing find].
  specialize (Hstable location w).
  destruct (os_path_exists location w) as [[|] w'];
    cbn [fst snd] in *; subst w'; [reflexivity | exact IH].
Qed.

(** X12.  On a file system that queries do not change, constructing a
    bridge without a path takes the first existing one of the three
    standard locations, tried in the order [bin/Release], [bin/Debug],
    module directory; when none exists it raises [FileNotFoundError]
    asking to build the bridge or give a path. *)
Theorem init_searches_standard_locations :
  forall (E : Env) (P : OsPath) (w : world),
    (forall p w0, snd (os_path_exists p w0) = w0) ->
    EZCADBridge__init__ None w
    = match find (fun p => fst (os_path_exists p w))
                 [path_join [module_dir; "EZCADIntegration"; "bin"; "Release";
                             "EZCADBridge.exe"];
                  path_join [module_dir; "EZCADIntegration"; "bin"; "Debug";
                             "EZCADBridge.exe"];
                  path_join [module_dir; "EZCADBridge.exe"]]
      with
      | Some exe => inr (mkState exe None w [])
      | None =>
          inl ("EZCADBridge.exe not found. Please build the C# bridge application or specify the path.",
               w)
      end.
Proof.
  intros E P w Hstable. unfold EZCADBridge__init__.
  rewrite first_existing_stable by assumption.
  fold possible_locations.
  destruct (find (fun p => fst (os_path_exists p w)) possible_locations)
    as [exe|] eqn:Hfind; [|reflexivity].
  apply find_some in Hfind. destruct Hfind as [_ Hex].
  pose proof (Hstable exe w) as H1.
  destruct (os_path_exists exe w) as [found w2]. cbn [fst snd] in *.
  subst found w2. cbn [negb].
  pose proof (Hstable (path_join [path_dirname exe; "MarkEzd.dll"]) w) as H2.
  destruct (os_path_exists (path_join [path_dirname exe; "MarkEzd.dll"]) w)
    as [dll w3]. cbn [snd] in H2. now subst w3.
Qed.

Lemma init_searches_standard_locations_witness :
  (forall p (w0 : @world Mock.env), snd (os_path_exists p w0) = w0)
  /\ EZCADBridge__init__ None
       (Mock.mk ["/opt/app/EZCADBridge.exe";
                 "/opt/app/EZCADIntegration/bin/Debug/EZCADBridge.exe"] [])
     = inr (mkState "/opt/app/EZCADIntegration/bin/Debug/EZCADBridge.exe" None
              (Mock.mk ["/opt/app/EZCADBridge.exe";
                        "/opt/app/EZCADIntegration/bin/Debug/EZCADBridge.exe"] [])
              [])
  /\ EZCADBridge__init__ None (Mock.mk ["/opt/app/other.exe"] [])
     = inl ("EZCADBridge.exe not found. Please build the C# bridge application or specify the path.",
            Mock.mk ["/opt/app/other.exe"] []).
Proof.
  assert (H : forall p (w0 : @world Mock.env), snd (os_path_exists p w0) = w0)
    by reflexivity.
  split; [exact H|]. split.
  - exact (init_searches_standard_locations Mock.env MockPath.ospath
             (Mock.mk ["/opt/app/EZCADBridge.exe";
                       "/opt/app/EZCADIntegration/bin/Debug/EZCADBridge.exe"] [])
             H).
  - exact (init_searches_standard_locations Mock.env MockPath.ospath
             (Mock.mk ["/opt/app/other.exe"] []) H).
Defined.

(** ** The command line of [ezcad_bridge.py] *)

Section CommandLineFacts.
Context {E : Env} {P : OsPath}.

Lemma init_state (args_bridge : option string) (w : world) (bridge : state E) :
  EZCADBridge__init__ args_bridge w = inr bridge ->
  current_ezd_file bridge = None /\ invocations bridge = [].
Proof.
  unfold EZCADBridge__init__.
  destruct (match args_bridge with
            | Some path => (Some path, w)
            | None => first_existing possible_locations w
            end) as [[exe|] w1]; [|discriminate].
  destruct (os_path_exists exe w1) as [[|] w2]; cbn [negb]; [|discriminate].
  destruct (os_path_exists (path_join [path_dirname exe; "MarkEzd.dll"]) w2).
  intros H; inversion H; subst. split; reflexivity.
Qed.

Lemma session_method_one_process (st : state E) (args : list string) :
  exists added,
    invocations (invoke_state args st) = (invocations st ++ added)%list
    /\ length added <= 1.
Proof. exists [bridge_exe_path st :: args]. split; [reflexivity | cbn; lia]. Qed.

Lemma no_process (st : state E) :
  exists added,
    invocations st = (invocations st ++ added)%list /\ length added <= 1.
Proof. exists []. split; [now rewrite app_nil_r | cbn; lia]. Qed.

(** A method that returns normally and starts at most one process. *)
Definition one_step {A} (method : M E A) : Prop :=
  forall st,
  exists r st' added,
    method st = (inr r, st')
    /\ invocations st' = (invocations st ++ added)%list
    /\ length added <= 1.

Lemma one_step_intro {A} (st s' : state E) (r : A) (added : list (list string)) :
  invocations s' = (invocations st ++ added)%list ->
  length added <= 1 ->
  exists r0 st' added0,
    (@inr string A r, s') = (inr r0, st')
    /\ invocations st' = (invocations st ++ added0)%list
    /\ length added0 <= 1.
Proof. intros H1 H2. exists r, s', added. auto. Qed.

Lemma one_step_idle {A} (st : state E) (r : A) :
  exists r0 st' added0,
    (@inr string A r, st) = (inr r0, st')
    /\ invocations st' = (invocations st ++ added0)%list
    /\ length added0 <= 1.
Proof.
  apply (one_step_intro st st r []); [now rewrite app_nil_r | cbn; lia].
Qed.

Lemma get_bridge_info_one_step : one_step get_bridge_info.
Proof.
  intros st. unfold get_bridge_info.
  destruct (run_bridge_command_spec ["info"] st) as [r [-> _]].
  apply (one_step_intro st _ r [bridge_exe_path st :: ["info"]]);
    [reflexivity | cbn; lia].
Qed.

Lemma open_ezd_file_one_step (path : string) : one_step (open_ezd_file path).
Proof.
  intros st. rewrite open_ezd_file_eq. cbv zeta.
  destruct (fst (os_path_exists path (os st)));
    [match goal with |- context [if ?c then _ else _] => destruct c end|].
  - apply (one_step_intro st _ true [bridge_exe_path st :: ["open"; path]]);
      [reflexivity | cbn; lia].
  - apply (one_step_intro st _ false [bridge_exe_path st :: ["open"; path]]);
      [reflexivity | cbn; lia].
  - apply (one_step_intro st _ false []); [cbn; now rewrite app_nil_r | cbn; lia].
Qed.

Lemma update_text_one_step (entity text : string) :
  one_step (update_text entity text).
Proof.
  intros st. destruct (current_ezd_file st) as [f|] eqn:Hcur.
  - rewrite (update_text_open st f) by assumption.
    apply (one_step_intro st _ _ [bridge_exe_path st :: ["update"; entity; text]]);
      [reflexivity | cbn; lia].
  - unfold update_text, bind, gets. rewrite Hcur. apply one_step_idle.
Qed.

Lemma mark_one_step (entity : option string) : one_step (mark entity).
Proof.
  intros st. destruct (current_ezd_file st) as [f|] eqn:Hcur.
  - rewrite (mark_open st f) by assumption.
    apply (one_step_intro st _ _ [bridge_exe_path st :: mark_command entity]);
      [reflexivity | cbn; lia].
  - unfold mark, bind, gets. rewrite Hcur. apply one_step_idle.
Qed.

Lemma list_entities_one_step : one_step list_entities.
Proof.
  intros st. destruct (current_ezd_file st) as [f|] eqn:Hcur.
  - rewrite (list_entities_open st f) by assumption.
    apply (one_step_intro st _ _ [bridge_exe_path st :: ["list"]]);
      [reflexivity | cbn; lia].
  - unfold list_entities, bind, gets. rewrite Hcur. apply one_step_idle.
Qed.

Lemma red_light_one_step (x y : pyobj) : one_step (red_light x y).
Proof.
  intros st. destruct (current_ezd_file st) as [f|] eqn:Hcur.
  - rewrite (red_light_open st f) by assumption.
    apply (one_step_intro st _ _ [bridge_exe_path st :: ["red"; py_str x; py_str y]]);
      [reflexivity | cbn; lia].
  - unfold red_light, bind, gets. rewrite Hcur. apply one_step_idle.
Qed.

Lemma save_ezd_file_one_step (output : string) :
  one_step (save_ezd_file output).
Proof.
  intros st. destruct (current_ezd_file st) as [f|] eqn:Hcur.
  - rewrite (save_ezd_file_open st f) by assumption.
    apply (one_step_intro st _ _ [bridge_exe_path st :: ["save"; output]]);
      [reflexivity | cbn; lia].
  - unfold save_ezd_file, bind, gets. rewrite Hcur. apply one_step_idle.
Qed.

End CommandLineFacts.

Section PrintFacts.
Context {E : Env} {C : Console}.

(** Printing does not touch the bridge. *)
Lemma print_bridge (text : string) (s : cli_state) :
  cli_bridge (snd (print text s)) = cli_bridge s.
Proof.
  unfold print.
  destruct (console_print text (cli_console s)) as [[e|] c']; reflexivity.
Qed.

Lemma print_entities_bridge (entities : list string) (s : cli_state) :
  cli_bridge (snd (print_entities entities s)) = cli_bridge s.
Proof.
  revert s. induction entities as [|entity rest IH]; intros s; [reflexivity|].
  cbn [print_entities]. unfold cli_bind.
  pose proof (print_bridge ("  - " ++ entity) s) as Hp.
  destruct (print ("  - " ++ entity) s) as [[e|[]] s1]; cbn [snd] in *;
    [exact Hp | now rewrite IH].
Qed.

(** On a standard output that accepts every text, printing returns. *)
Lemma print_accepted (text : string) (s : cli_state) :
  (forall t c, fst (console_print t c) = None) ->
  fst (print text s) = inr tt.
Proof.
  intros Hok. unfold print. specialize (Hok text (cli_console s)).
  destruct (console_print text (cli_console s)) as [[e|] c'];
    [discriminate | reflexivity].
Qed.

Lemma print_entities_accepted (entities : list string) (s : cli_state) :
  (forall t c, fst (console_print t c) = None) ->
  fst (print_entities entities s) = inr tt.
Proof.
  intros Hok. revert s.
  induction entities as [|entity rest IH]; intros s; [reflexivity|].
  cbn [print_entities]. unfold cli_bind.
  pose proof (print_accepted ("  - " ++ entity) s Hok) as Hp.
  destruct (print ("  - " ++ entity) s) as [[e|[]] s1]; cbn [fst] in *;
    [discriminate | apply IH].
Qed.

(** A method call followed by prints: the processes are those of the
    method, and with an accepting standard output the run returns. *)
Lemma call_then_print {A} (method : M E A) (k : A -> CLI unit) (s : cli_state) :
  one_step method ->
  (forall a s0, cli_bridge (snd (k a s0)) = cli_bridge s0) ->
  (exists added,
      invocations (cli_bridge (snd (cli_bind (call method) k s)))
      = (invocations (cli_bridge s) ++ added)%list
      /\ length added <= 1)
  /\ ((forall a s0, fst (k a s0) = inr tt) ->
      fst (cli_bind (call method) k s) = inr tt).
Proof.
  intros Hstep Hframe. unfold cli_bind, call.
  destruct (Hstep (cli_bridge s)) as [r [st' [added [-> [Hinv Hlen]]]]].
  split.
  - exists added. rewrite Hframe. cbn. auto.
  - intros Hk. apply Hk.
Qed.

Lemma cli_dispatch_facts (command : cli_command) (s : cli_state) :
  (exists added,
      invocations (cli_bridge (snd (cli_dispatch command s)))
      = (invocations (cli_bridge s) ++ added)%list
      /\ length added <= 1)
  /\ ((forall t c, fst (console_print t c) = None) ->
      fst (cli_dispatch command s) = inr tt).
Proof.
  assert (Hlist_frame : forall (a : list string) s0,
             cli_bridge
               (snd (cli_bind (print "Entities:") (fun _ => print_entities a) s0))
             = cli_bridge s0).
  { intros a s0. unfold cli_bind.
    pose proof (print_bridge "Entities:" s0) as Hp.
    destruct (print "Entities:" s0) as [[e|[]] s1]; cbn [snd] in *;
      [exact Hp | now rewrite print_entities_bridge]. }
  destruct command; cbn [cli_dispatch].
  - destruct (call_then_print get_bridge_info
                (fun result => print (Result.output result)) s
                get_bridge_info_one_step (fun a s0 => print_bridge _ s0))
      as [H1 H2].
    split; [exact H1|]. intros Hok. apply H2. intros; now apply print_accepted.
  - destruct (call_then_print (open_ezd_file ezd_file)
                (fun success => print ("Open result: " ++ verdict success)) s
                (open_ezd_file_one_step ezd_file) (fun a s0 => print_bridge _ s0))
      as [H1 H2].
    split; [exact H1|]. intros Hok. apply H2. intros; now apply print_accepted.
  - destruct (call_then_print (update_text entity text)
                (fun success => print ("Update result: " ++ verdict success)) s
                (update_text_one_step entity text) (fun a s0 => print_bridge _ s0))
      as [H1 H2].
    split; [exact H1|]. intros Hok. apply H2. intros; now apply print_accepted.
  - destruct (call_then_print (mark entity)
                (fun success => print ("Mark result: " ++ verdict success)) s
                (mark_one_step entity) (fun a s0 => print_bridge _ s0))
      as [H1 H2].
    split; [exact H1|]. intros Hok. apply H2. intros; now apply print_accepted.
  - destruct (call_then_print list_entities
                (fun entities =>
                   cli_bind (print "Entities:") (fun _ => print_entities entities))
                s list_entities_one_step Hlist_frame)
      as [H1 H2].
    split; [exact H1|]. intros Hok. apply H2. intros a s0. unfold cli_bind.
    pose proof (print_accepted "Entities:" s0 Hok) as Hp.
    destruct (print "Entities:" s0) as [[e|[]] s1]; cbn [fst] in *;
      [discriminate | now apply print_entities_accepted].
  - destruct (call_then_print (red_light x y)
                (fun success => print ("Red light result: " ++ verdict success)) s
                (red_light_one_step x y) (fun a s0 => print_bridge _ s0))
      as [H1 H2].
    split; [exact H1|]. intros Hok. apply H2. intros; now apply print_accepted.
  - destruct (call_then_print (save_ezd_file output)
                (fun success => print ("Save result: " ++ verdict success)) s
                (save_ezd_file_one_step output) (fun a s0 => print_bridge _ s0))
      as [H1 H2].
    split; [exact H1|]. intros Hok. apply H2. intros; now apply print_accepted.
  - split.
    + exists []. rewrite print_bridge. split; [now rewrite app_nil_r | cbn; lia].
    + intros Hok. now apply print_accepted.
Qed.

(** A session command on a bridge without session: no process, and the
    failure line is printed unless the [print] raises. *)
Lemma failing_command_run (method : M E bool) (prefix : string)
      (bridge : state E) (stdout : console) :
  method bridge = (inr false, bridge) ->
  exists r s,
    cli_bind (call method) (fun success => print (prefix ++ verdict success))
             (mkCli bridge stdout [])
    = (r, s)
    /\ cli_bridge s = bridge
    /\ ((r = inr tt /\ cli_written s = [prefix ++ "Failed"])
        \/ ((exists e, r = inl e) /\ cli_written s = [])).
Proof.
  intros Hm. unfold cli_bind, call. cbn [cli_bridge cli_console cli_written].
  rewrite Hm. unfold print. cbn [cli_bridge cli_console cli_written verdict].
  destruct (console_print (prefix ++ "Failed") stdout) as [[e|] c'];
    do 2 eexists; (split; [reflexivity|]); (split; [reflexivity|]).
  - right. split; [eexists; reflexivity | reflexivity].
  - left. split; reflexivity.
Qed.

End PrintFacts.




(** ** The integration methods that only use the bridge *)

Section GuardFacts.
Context {E : Env}.

(** The three ways the guard "template exists, then opens" can go. *)
Lemma guard_cases (ezd_template : string) (st : state E) :
  (template_opens ezd_template st = true
   /\ exists st1 st2,
       path_exists ezd_template st = (inr true, st1)
       /\ open_ezd_file ezd_template st1 = (inr true, st2)
       /\ current_ezd_file st2 = Some ezd_template
       /\ bridge_exe_path st2 = bridge_exe_path st
       /\ invocations st2
          = (invocations st ++ [[bridge_exe_path st; "open"; ezd_template]])%list)
  \/ (template_opens ezd_template st = false
      /\ exists st1,
          path_exists ezd_template st = (inr false, st1)
          /\ current_ezd_file st1 = current_ezd_file st
          /\ invocations st1 = invocations st)
  \/ (template_opens ezd_template st = false
      /\ exists st1 st2,
          path_exists ezd_template st = (inr true, st1)
          /\ open_ezd_file ezd_template st1 = (inr false, st2)
          /\ current_ezd_file st2 = current_ezd_file st
          /\ (invocations st2 = invocations st
              \/ invocations st2
                 = (invocations st
                    ++ [[bridge_exe_path st; "open"; ezd_template]])%list)).
Proof.
  unfold template_opens.
  destruct (path_exists ezd_template st) as [r st1] eqn:Hex.
  assert (Hst1 : exists b, r = inr b
                 /\ current_ezd_file st1 = current_ezd_file st
                 /\ bridge_exe_path st1 = bridge_exe_path st
                 /\ invocations st1 = invocations st).
  { unfold path_exists in Hex.
    destruct (os_path_exists ezd_template (os st)) as [b w].
    inversion Hex; subst. exists b. repeat split. }
  destruct Hst1 as [b [-> [Hcur1 [Hexe1 Hinv1]]]].
  destruct b.
  - destruct (open_ezd_file_returns ezd_template st1) as [b [st2 Hop]].
    rewrite Hop. destruct b.
    + left. split; [reflexivity|]. exists st1, st2.
      destruct (open_true_state _ _ _ Hop) as [Hc [He Hi]].
      repeat split; try assumption; congruence.
    + right; right. split; [reflexivity|]. exists st1, st2.
      split; [reflexivity|]. split; [exact Hop|].
      split; [rewrite (open_false_state _ _ _ Hop); exact Hcur1|].
      rewrite open_ezd_file_eq in Hop. cbv zeta in Hop.
      destruct (fst (os_path_exists ezd_template (os st1))).
      * match type of Hop with context [if ?c then _ else _] => destruct c end;
          [discriminate|].
        inversion Hop; subst st2. right. cbn. now rewrite Hinv1, Hexe1.
      * inversion Hop; subst st2. left. exact Hinv1.
  - right; left. split; [reflexivity|]. exists st1. auto.
Qed.

End GuardFacts.

(** X15.  [list_entities_in_template] never raises.  Without a bridge it
    returns the empty list and touches nothing.  With a bridge, when the
    template exists and opens it starts [open] then [list] and leaves the
    session on that template; otherwise it returns the empty list, starts
    no [list], and leaves the session as it was. *)
Theorem list_entities_in_template_behaviour :
  forall (E : Env) (ezd_template : string) (self : integration),
    match self with
    | NoBridge w =>
        list_entities_in_template ezd_template self = (inr [], NoBridge w)
    | WithBridge st =>
        exists entities st',
          list_entities_in_template ezd_template self
          = (inr entities, WithBridge st')
          /\ if template_opens ezd_template st then
               invocations st'
               = (invocations st
                  ++ [[bridge_exe_path st; "open"; ezd_template];
                      [bridge_exe_path st; "list"]])%list
               /\ current_ezd_file st' = Some ezd_template
             else
               entities = []
               /\ current_ezd_file st' = current_ezd_file st
               /\ (invocations st' = invocations st
                   \/ invocations st'
                      = (invocations st
                         ++ [[bridge_exe_path st; "open"; ezd_template]])%list)
    end.
Proof.
  intros E tpl [w|st]; [reflexivity|].
  unfold list_entities_in_template, with_bridge, bind.
  destruct (guard_cases tpl st)
    as [[-> [st1 [st2 [-> [Hop [Hcur [Hexe Hinv]]]]]]]
       | [[-> [st1 [-> [Hcur Hinv]]]]
         | [-> [st1 [st2 [-> [Hop [Hcur Hinv]]]]]]]]; cbn [negb].
  - rewrite Hop. cbn [negb].
    rewrite (list_entities_open st2 tpl) by assumption.
    do 2 eexists. split; [reflexivity|].
    split; [|exact Hcur]. cbn. rewrite Hinv, Hexe, <- app_assoc. reflexivity.
  - unfold ret. do 2 eexists. split; [reflexivity|]. auto.
  - rewrite Hop. cbn [negb]. unfold ret.
    do 2 eexists. split; [reflexivity|]. auto.
Qed.

(** X16.  [test_integration] never raises.  Without a bridge it returns
    false and touches nothing.  With a bridge it first starts [info],
    even when the template is missing, and then returns true exactly when
    the template exists and opens: neither what [info] printed nor what
    the final [list] printed matters.  A true answer has started exactly
    [info], [open] and [list]. *)
Theorem test_integration_behaviour :
  forall (E : Env) (ezd_template : string) (self : integration),
    match self with
    | NoBridge w => test_integration ezd_template self = (inr false, NoBridge w)
    | WithBridge st =>
        exists st' rest,
          test_integration ezd_template self
          = (inr (template_opens ezd_template (invoke_state ["info"] st)),
             WithBridge st')
          /\ invocations st'
             = (invocations st ++ [bridge_exe_path st; "info"] :: rest)%list
          /\ if template_opens ezd_template (invoke_state ["info"] st) then
               rest = [[bridge_exe_path st; "open"; ezd_template];
                       [bridge_exe_path st; "list"]]
             else
               rest = []
               \/ rest = [[bridge_exe_path st; "open"; ezd_template]]
    end.
Proof.
  intros E tpl [w|st]; [reflexivity|].
  unfold test_integration, with_bridge, bind, get_bridge_info.
  destruct (run_bridge_command_spec ["info"] st) as [r [-> _]].
  set (st0 := invoke_state ["info"] st).
  assert (Hinv0 : invocations st0
                  = (invocations st ++ [[bridge_exe_path st; "info"]])%list)
    by reflexivity.
  assert (Hexe0 : bridge_exe_path st0 = bridge_exe_path st) by reflexivity.
  destruct (guard_cases tpl st0)
    as [[-> [st1 [st2 [-> [Hop [Hcur [Hexe Hinv]]]]]]]
       | [[-> [st1 [-> [Hcur Hinv]]]]
         | [-> [st1 [st2 [-> [Hop [Hcur Hinv]]]]]]]]; cbn [negb].
  - rewrite Hop. cbn [negb].
    rewrite (list_entities_open st2 tpl) by assumption. unfold ret.
    do 2 eexists. split; [reflexivity|]. split; [|reflexivity].
    cbn. rewrite Hinv, Hexe, Hexe0, Hinv0, <- !app_assoc. reflexivity.
  - unfold ret. exists st1, []. split; [reflexivity|].
    split; [now rewrite Hinv, Hinv0 | now left].
  - rewrite Hop. cbn [negb]. unfold ret.
    destruct Hinv as [Hinv | Hinv].
    + exists st2, []. split; [reflexivity|].
      split; [now rewrite Hinv, Hinv0 | now left].
    + exists st2, [[bridge_exe_path st; "open"; tpl]]. split; [reflexivity|].
      split; [|now right].
      rewrite Hinv, Hexe0, Hinv0, <- app_assoc. reflexivity.
Qed.

(** ** The [id] field is informational only *)

Section IdFacts.
Context {E : Env}.
Variable self_update_text : string -> string -> M E bool.
Variable self_mark : option string -> M E bool.

Lemma update_entities_without_id (available : list string) (item : data_item)
      (update_success : bool) (st : state E) :
  update_entities self_update_text available (without_id item) update_success st
  = update_entities self_update_text available item update_success st.
Proof.
  revert update_success st.
  induction item as [|[k v] rest IH]; intros b st; [reflexivity|].
  unfold without_id in *. cbn [filter fst].
  destruct (negb (String.eqb k "id")) eqn:Hid.
  - cbn [update_entities]. rewrite Hid.
    destruct (existsb (String.eqb k) available); [|apply IH].
    unfold bind. destruct (self_update_text k (py_str v) st) as [[e|ok] st1];
      [reflexivity | apply IH].
  - cbn [update_entities]. rewrite Hid. apply IH.
Qed.

Lemma process_items_without_id (available : list string)
      (items : list data_item) (stats : Stats.t) (st : state E) :
  process_items self_update_text self_mark available
                (map without_id items) stats st
  = process_items self_update_text self_mark available items stats st.
Proof.
  revert stats st. induction items as [|item rest IH]; intros stats st;
    [reflexivity|].
  cbn [map process_items]. unfold bind, process_item, try_except, bind.
  rewrite update_entities_without_id.
  destruct (update_entities self_update_text available item true st)
    as [[e|[|]] st1]; unfold ret; try apply IH.
  destruct (self_mark None st1) as [[e|[|]] st2]; apply IH.
Qed.

End IdFacts.

(** X17.  The [id] field of a data item never reaches the engine, even
    when the template has an entity called [id]: removing the [id]
    fields from every item changes neither what a batch returns nor what
    it does, for any behaviour of the update and mark calls. *)
Theorem process_data_ignores_id_fields :
  forall (E : Env)
         (self_update_text : string -> string -> M E bool)
         (self_mark : option string -> M E bool)
         (ezd_template : string) (data_items : list data_item)
         (output_path : option string) (st : state E),
    process_data_with self_update_text self_mark ezd_template
                      (map without_id data_items) output_path st
    = process_data_with self_update_text self_mark ezd_template
                        data_items output_path st.
Proof.
  intros E upd mrk tpl rows out st.
  unfold process_data_with, bind.
  destruct (path_exists tpl st) as [[e|[|]] st1]; cbn [negb]; try reflexivity.
  destruct (open_ezd_file tpl st1) as [[e|[|]] st2]; cbn [negb]; try reflexivity.
  destruct (list_entities st2) as [[e|avail] st3]; try reflexivity.
  rewrite length_map, process_items_without_id. reflexivity.
Qed.

(** ** Output is parsed line by line *)

Lemma splitlines_eq (s : string) :
  splitlines s =
  match s with
  | EmptyString => []
  | String c s' =>
      if is_linebreak c then
        match s' with
        | String d s'' =>
            if (code c =? 13) && (code d =? 10)
            then EmptyString :: splitlines s''
            else EmptyString :: splitlines s'
        | EmptyString => [EmptyString]
        end
      else cons_first c (splitlines s')
  end.
Proof. destruct s; reflexivity. Qed.

Lemma splitlines_nl_head (b : string) :
  splitlines (nl ++ b) = EmptyString :: splitlines b.
Proof.
  unfold nl. cbn [append]. rewrite splitlines_eq.
  change (is_linebreak (ascii_of_nat 10)) with true. cbv iota.
  destruct b as [|d b']; [reflexivity|].
  change (code (ascii_of_nat 10) =? 13) with false. reflexivity.
Qed.

(** Joining two texts with a line feed joins their lines, up to one
    empty line at the seam. *)
Lemma splitlines_join (b : string) (n : nat) :
  forall a : string,
    String.length a <= n ->
    exists extra,
      (extra = [] \/ extra = [EmptyString])
      /\ (splitlines a = [] -> extra = [EmptyString])
      /\ splitlines (a ++ nl ++ b)
         = (splitlines a ++ extra ++ splitlines b)%list.
Proof.
  induction n as [|n IH]; intros a Hlen.
  - destruct a; [|cbn in Hlen; lia].
    exists [EmptyString]. cbn [append]. rewrite splitlines_nl_head. auto.
  - destruct a as [|c a'].
    { exists [EmptyString]. cbn [append]. rewrite splitlines_nl_head. auto. }
    cbn [String.length] in Hlen.
    cbn [append].
    rewrite (splitlines_eq (String c (a' ++ nl ++ b))), (splitlines_eq (String c a')).
    destruct (is_linebreak c) eqn:Hlb.
    + destruct a' as [|d a''].
      * cbn [append]. unfold nl at 1. cbn [append].
        change (code (ascii_of_nat 10) =? 10) with true.
        rewrite andb_true_r.
        destruct (code c =? 13).
        -- exists []. repeat split; auto; discriminate.
        -- exists [EmptyString]. fold nl. fold (nl ++ b).
           rewrite splitlines_nl_head. repeat split; auto.
      * cbn [append]. cbn [String.length] in Hlen.
        destruct ((code c =? 13) && (code d =? 10)).
        -- destruct (IH a'' ltac:(lia)) as [extra [H1 [H2 H3]]].
           exists extra. rewrite H3. repeat split; auto; discriminate.
        -- destruct (IH (String d a'') ltac:(cbn; lia)) as [extra [H1 [H2 H3]]].
           exists extra. cbn [append] in H3. rewrite H3.
           repeat split; auto; discriminate.
    + destruct (IH a' ltac:(lia)) as [extra [H1 [H2 H3]]].
      rewrite H3. destruct (splitlines a') as [|l ls].
      * rewrite (H2 eq_refl). exists []. cbn. repeat split; auto; discriminate.
      * exists extra. cbn. repeat split; auto; discriminate.
Qed.

(** X18.  The parser works line by line: the entities of two outputs
    joined by a line feed are the entities of the first followed by the
    entities of the second; for text over code points below 256. *)
Theorem parse_entities_join :
  forall a b : string,
    parse_entities (a ++ nl ++ b)
    = (parse_entities a ++ parse_entities b)%list.
Proof.
  intros a b. rewrite !parse_entities_spec. unfold spec_entities.
  destruct (splitlines_join b (String.length a) a (le_n _))
    as [extra [Hextra [_ ->]]].
  rewrite !map_app, !filter_app, !map_app.
  destruct Hextra as [-> | ->]; reflexivity.
Qed.

(** X19.  Building the integration never raises.  When the bridge
    cannot be constructed the integration has no bridge, and then
    listing entities gives the empty list and the integration test gives
    false without a single query or process; otherwise it holds the new
    bridge, which has no open session. *)
Theorem init_bridge_failure_is_silent :
  forall (E : Env) (P : OsPath) (bridge_exe : option string) (w : world)
         (ezd_template : string),
    match EZCADBridge__init__ bridge_exe w with
    | inl (_, w') =>
        _init_bridge bridge_exe w = NoBridge w'
        /\ list_entities_in_template ezd_template (_init_bridge bridge_exe w)
           = (inr [], NoBridge w')
        /\ test_integration ezd_template (_init_bridge bridge_exe w)
           = (inr false, NoBridge w')
    | inr bridge =>
        _init_bridge bridge_exe w = WithBridge bridge
        /\ current_ezd_file bridge = None
        /\ invocations bridge = []
    end.
Proof.
  intros E P bridge_exe w tpl. unfold _init_bridge.
  destruct (EZCADBridge__init__ bridge_exe w) as [[e w']|bridge] eqn:Hinit.
  - repeat split.
  - destruct (init_state _ _ _ Hinit) as [Hcur Hinv]. auto.
Qed.

(** ** Sample runs of the command line and of the integration *)

Example main_open_sample :
  main None (cli_open "job.ezd")
       (Mock.mk ["/opt/app/EZCADBridge.exe"; "job.ezd"]
                [says "File opened successfully"]) tt
  = mkOutcome ["Open result: Success"] 0
      [["/opt/app/EZCADBridge.exe"; "open"; "job.ezd"]]
      (Mock.mk ["/opt/app/EZCADBridge.exe"; "job.ezd"] []).
Proof. reflexivity. Qed.

Example main_list_sample :
  main (Some "EZCADBridge.exe") cli_list
       (Mock.mk ["EZCADBridge.exe"] [says "[0] Serial (Type: Text)"]) tt
  = mkOutcome ["Entities:"] 0 []
      (Mock.mk ["EZCADBridge.exe"] [says "[0] Serial (Type: Text)"]).
Proof. reflexivity. Qed.

Example list_entities_in_template_sample :
  list_entities_in_template "job.ezd"
    (_init_bridge (Some "EZCADBridge.exe")
       (Mock.mk ["EZCADBridge.exe"; "job.ezd"]
          [says "File opened successfully";
           says ("[0] Serial (Type: Text)" ++ nl ++ "[1] QRCode (Type: Barcode)")]))
  = (inr ["Serial"; "QRCode"],
     WithBridge
       (bridge (Some "job.ezd") ["EZCADBridge.exe"; "job.ezd"] []
          [["EZCADBridge.exe"; "open"; "job.ezd"]; ["EZCADBridge.exe"; "list"]])).
Proof. reflexivity. Qed.

(** ** Sample runs with text outside the 7-bit range *)

(** NEL ends a line and NO-BREAK SPACE is trimmed, as in CPython. *)
Example parse_entities_latin1_sample :
  parse_entities (nbsp ++ "[0] Serial (Type: Text)" ++ nel
                  ++ "[1] QRCode" ++ nbsp ++ "(Type: Barcode)")
  = ["Serial"; "QRCode"]
  /\ parse_entities ("[0] Serial" ++ nbsp ++ "(Type: Text)") = ["Serial"]
  /\ splitlines ("a" ++ nel ++ "b") = ["a"; "b"]
  /\ strip (nbsp ++ "a" ++ nel) = "a"
  /\ lower (String (ascii_of_nat 201) "COLE") = String (ascii_of_nat 233) "cole".
Proof. repeat split. Qed.

(** A bridge that was built, an [info] whose output standard output
    cannot encode: the [print] raises inside the [try] and the run ends
    with status 1 after having started the process. *)
Example main_info_unencodable_sample :
  @main Mock.env MockPath.ospath MockConsole.seven_bit
        (Some "EZCADBridge.exe") cli_info
        (Mock.mk ["EZCADBridge.exe"]
                 [says ("EZCAD bridge, libert" ++ String (ascii_of_nat 233) EmptyString)])
        tt
  = mkOutcome [] 1 [["EZCADBridge.exe"; "info"]] (Mock.mk ["EZCADBridge.exe"] []).
Proof. reflexivity. Qed.
